(** * Sleep Apnea Economic Impact Model: the Savings Projector (app.py) and
      the Comorbidity Sampler (comorbidity_monte_carlo_sim.py)

    The two scripts are embedded as Rocq functions that follow the source
    statement by statement.

    Numbers.  The Python code computes with [int] and [float].  Integers are
    modelled as [Z].  Floats are modelled through the interface [Number]: a
    carrier with the operations the scripts use ([+], [-], [*], [/], [**] and
    the conversion of an integer operand).  The loops are written once, over
    any [Number]; the theorems that only follow the shape of the loops hold
    for every interpretation of the operations (rounding included), the
    theorems that need the laws of arithmetic are proved for the exact
    rationals [Q]. *)

From Stdlib Require Import QArith Qpower Qfield Lqa ZArith String Ascii List.
From stdpp Require Import gmap strings list.

Close Scope Q_scope.

(** ** Arithmetic interface *)

Class Number (A : Type) := {
  of_int : Z → A;
  add : A → A → A;
  sub : A → A → A;
  mul : A → A → A;
  div : A → A → A;
  pow : A → Z → A
}.

Declare Scope num_scope.
Delimit Scope num_scope with num.
Infix "+" := add : num_scope.
Infix "-" := sub : num_scope.
Infix "*" := mul : num_scope.
Infix "/" := div : num_scope.
Notation "x ** y" := (pow x y) (at level 30, right associativity) : num_scope.

(** Exact rational arithmetic. *)
#[export] Instance Q_Number : Number Q := {
  of_int := inject_Z;
  add := Qplus;
  sub := Qminus;
  mul := Qmult;
  div := Qdiv;
  pow := Qpower
}.

(** ** Python containers *)

(** A dict that the code iterates over keeps its insertion order: it is a
    list of items.  [dict_get] is [d.get(k)], [dict_keys] and [dict_values]
    are [d.keys()] and [d.values()]. *)
Fixpoint dict_get {V : Type} (d : list (string * V)) (k : string) : option V :=
  match d with
  | [] => None
  | (k', v) :: d' => if String.eqb k' k then Some v else dict_get d' k
  end.

Definition dict_keys {V : Type} (d : list (string * V)) : list string := map fst d.
Definition dict_values {V : Type} (d : list (string * V)) : list V := map snd d.

(** [needle in hay] on Python strings: [needle] occurs at some offset. *)
Fixpoint contains (needle hay : string) : bool :=
  String.prefix needle hay ||
  match hay with
  | EmptyString => false
  | String _ hay' => contains needle hay'
  end.

(** Python's [s.split(sep)] for a one-character separator: the fields
    between occurrences of [sep], empty fields included. *)
Fixpoint split (sep : ascii) (s : string) : list string :=
  match s with
  | EmptyString => [EmptyString]
  | String c s' =>
      if Ascii.eqb c sep then EmptyString :: split sep s'
      else match split sep s' with
           | [] => [String c EmptyString]
           | field :: fields => String c field :: fields
           end
  end.

(** [sorted] on a list of strings (ascending code-point order, stable). *)
Fixpoint insert_sorted (x : string) (l : list string) : list string :=
  match l with
  | [] => [x]
  | y :: l' => if String.ltb x y then x :: y :: l' else y :: insert_sorted x l'
  end.

Definition sorted (l : list string) : list string :=
  fold_left (fun acc x => insert_sorted x acc) l [].

(** ** Results of code that can stop early *)

Inductive py_exception :=
  | ZeroDivisionError
  | AttributeError
  | StopExecution.

Inductive outcome (T : Type) :=
  | Returns (x : T)
  | Raises (e : py_exception).
Arguments Returns {T} x.
Arguments Raises {T} e.

#[export] Instance outcome_ret : MRet outcome := λ T x, Returns x.

#[export] Instance outcome_bind : MBind outcome := λ T U f m,
  match m with
  | Returns x => f x
  | Raises e => Raises e
  end.

(** A comprehension whose element expression can raise: the elements are
    computed in order and the first exception ends the comprehension. *)
Fixpoint comprehension {T U : Type} (f : T → outcome U) (l : list T) : outcome (list U) :=
  match l with
  | [] => Returns []
  | x :: l' => y ← f x; ys ← comprehension f l'; mret (y :: ys)
  end.

(** ** The Savings Projector (app.py) *)

Module Projector.
Section Generic.
Context {A : Type} `{Number A}.
Local Open Scope num_scope.

(** [slider(...) / 100]: an integer percentage divided by the integer 100.
    A two-decimal literal of the source such as [0.40] denotes the same
    number as [40 / 100], also in binary floating point, where both are the
    float nearest to the decimal. *)
Definition percent (n : Z) : A := of_int n / of_int 100.

(** The module-level inputs read by [calculate_savings] (lines 13-21 and
    the two prevalence dicts, lines 30-63). *)
Record inputs := {
  population_size : Z;
  osa_prevalence : A;
  current_diagnosis_rate : A;
  target_diagnosis_rate : A;
  treatment_adherence : A;
  cost_diagnosis : Z;
  cost_treatment : Z;
  discount_rate : A;
  comorbidity_prevalence : gmap string A;
  joint_prevalence : list (string * A)
}.

(** [years = np.arange(1, 21)] *)
Definition years : list Z := map Z.of_nat (seq 1 20).

(** Lines 68-80. *)
Definition comorbidity_costs : list (string * Z) :=
  [ ("Hypertension", 2000%Z); ("Diabetes", 12000%Z);
    ("Cardiovascular Event", 30000%Z); ("Depression", 5000%Z) ].

Definition risk_reduction : list (string * A) :=
  [ ("Hypertension", percent 40); ("Diabetes", percent 25);
    ("Cardiovascular Event", percent 50); ("Depression", percent 30) ].

(** [d[k]] on the two constant tables.  Every key the code looks up is
    present (lemma [tables_total] below), so the fall-back value is never
    taken and no [KeyError] is possible. *)
Definition cost_of (k : string) : Z := default 0%Z (dict_get comorbidity_costs k).
Definition reduction_of (k : string) : A := default (of_int 0) (dict_get risk_reduction k).

(** [np.mean(list)]: the sum of the elements divided by their number. *)
Definition mean (l : list A) : A :=
  fold_left add l (of_int 0) / of_int (Z.of_nat (length l)).

(** Lines 82-83. *)
Definition discounted_value (value : A) (year : Z) (rate : A) : A :=
  value / ((of_int 1 + rate) ** year).

Section Run.
Variable i : inputs.

(** Lines 86-87. *)
Definition untreated_osa : A :=
  of_int (population_size i) * osa_prevalence i * (of_int 1 - current_diagnosis_rate i).

Definition improved_treated_osa : A :=
  of_int (population_size i) * osa_prevalence i
  * (target_diagnosis_rate i - current_diagnosis_rate i) * treatment_adherence i.

(** Body of the loop of lines 95-100. *)
Definition condition_step (year : Z) (yearly_savings : A) (condition : string) : A :=
  let prevalence := default (of_int 0) (comorbidity_prevalence i !! condition) in
  let baseline_cases := untreated_osa * prevalence in
  let reduced_cases := improved_treated_osa * prevalence * reduction_of condition in
  let cost_avoided := reduced_cases * of_int (cost_of condition) in
  yearly_savings + discounted_value cost_avoided year (discount_rate i).

(** Lines 104-110: an integer, built from the three substring tests. *)
Definition cost_estimate (joint_key : string) : Z :=
  let cost_estimate := 0%Z in
  let cost_estimate :=
    if contains "Hypertension" joint_key
    then (cost_estimate + cost_of "Hypertension")%Z else cost_estimate in
  let cost_estimate :=
    if contains "Diabetes" joint_key
    then (cost_estimate + cost_of "Diabetes")%Z else cost_estimate in
  let cost_estimate :=
    if contains "Cardio" joint_key
    then (cost_estimate + cost_of "Cardiovascular Event")%Z else cost_estimate in
  cost_estimate.

(** Body of the loop of lines 103-112. *)
Definition joint_step (year : Z) (yearly_savings : A) (item : string * A) : A :=
  let '(joint_key, joint_val) := item in
  let cost_avoided :=
    improved_treated_osa * joint_val * of_int (cost_estimate joint_key)
    * mean (dict_values risk_reduction) in
  yearly_savings + discounted_value cost_avoided year (discount_rate i).

(** One row of [annual_data]. *)
Record annual_record := {
  Year : Z;
  Cost_Avoided : A;
  Treatment_Cost : A;
  Net_Savings : A
}.

(** Value of [yearly_savings] when line 114 is reached. *)
Definition yearly_savings_of (year : Z) : A :=
  let yearly_savings := of_int 0 in
  let yearly_savings :=
    fold_left (condition_step year) (dict_keys comorbidity_costs) yearly_savings in
  fold_left (joint_step year) (joint_prevalence i) yearly_savings.

(** Line 114.  The conditional expression binds weaker than [+]:
    [(cost_treatment + cost_diagnosis) if year == 1 else cost_treatment]. *)
Definition treatment_cost_of (year : Z) : A :=
  improved_treated_osa
  * of_int (if (year =? 1)%Z then (cost_treatment i + cost_diagnosis i)%Z
            else cost_treatment i).

(** Body of the loop of lines 92-123, on the pair
    [(total_savings, annual_data)]. *)
Definition year_step (st : A * list annual_record) (year : Z) : A * list annual_record :=
  let '(total_savings, annual_data) := st in
  let yearly_savings := yearly_savings_of year in
  let treatment_cost := treatment_cost_of year in
  let net_savings :=
    yearly_savings - discounted_value treatment_cost year (discount_rate i) in
  (total_savings + net_savings,
   annual_data ++ [ {| Year := year;
                       Cost_Avoided := yearly_savings;
                       Treatment_Cost := discounted_value treatment_cost year (discount_rate i);
                       Net_Savings := net_savings |} ]).

(** Lines 85-126; the data frame is the list of its rows. *)
Definition calculate_savings : A * list annual_record :=
  fold_left year_step years (of_int 0, []).

End Run.

(** Python's [sum]: left to right, starting from the integer 0. *)
Definition py_sum (l : list A) : A := fold_left add l (of_int 0).

(** *** The two sources of the prevalence dicts (lines 26-66) *)

(** Manual entry, lines 30-35 and 38-43: eight sliders in percent. *)
Definition manual_comorbidity_prevalence (hyp dia car dep : Z) : gmap string A :=
  <["Hypertension" := percent hyp]>
    (<["Diabetes" := percent dia]>
      (<["Cardiovascular Event" := percent car]>
        (<["Depression" := percent dep]> ∅))).

Definition manual_joint_prevalence (hyp_dia hyp_car dia_car all_three : Z)
  : list (string * A) :=
  [ ("Hypertension + Diabetes", percent hyp_dia);
    ("Hypertension + Cardio", percent hyp_car);
    ("Diabetes + Cardio", percent dia_car);
    ("All Three", percent all_three) ].

(** The uploaded JSON document, as far as the code looks into it: an object
    whose members are numbers or objects of numbers. *)
Inductive json :=
  | JNumber (x : A)
  | JObject (members : gmap string A).

(** Lines 51-56. *)
Definition uploaded_comorbidity_prevalence (prevalence_raw : gmap string A)
  : gmap string A :=
  <["Hypertension" := default (of_int 0) (prevalence_raw !! "hypertension")]>
    (<["Diabetes" := default (of_int 0) (prevalence_raw !! "diabetes")]>
      (<["Cardiovascular Event" := default (of_int 0) (prevalence_raw !! "cardio")]>
        (<["Depression" := percent 25]> ∅))).

(** Lines 58-63. *)
Definition uploaded_joint_prevalence (prevalence_raw : gmap string A)
  : list (string * A) :=
  [ ("Hypertension + Diabetes",
     default (of_int 0) (prevalence_raw !! "hypertension_diabetes"));
    ("Hypertension + Cardio",
     default (of_int 0) (prevalence_raw !! "hypertension_cardio"));
    ("Diabetes + Cardio",
     default (of_int 0) (prevalence_raw !! "diabetes_cardio"));
    ("All Three",
     default (of_int 0) (prevalence_raw !! "hypertension_diabetes_cardio")) ].

(** Line 48: [mc_data.get('joint_prevalence', {})], followed by the first
    [.get] on the result, which raises [AttributeError] when the member is
    not an object. *)
Definition prevalence_raw_of (mc_data : gmap string json) : outcome (gmap string A) :=
  match mc_data !! "joint_prevalence" with
  | None => Returns ∅
  | Some (JObject members) => Returns members
  | Some (JNumber _) => Raises AttributeError
  end.

(** Lines 45-66.  Without a file the script stops. *)
Definition load_monte_carlo (uploaded_file : option (gmap string json))
  : outcome (gmap string A * list (string * A)) :=
  match uploaded_file with
  | None => Raises StopExecution
  | Some mc_data =>
      prevalence_raw ← prevalence_raw_of mc_data;
      mret (uploaded_comorbidity_prevalence prevalence_raw,
            uploaded_joint_prevalence prevalence_raw)
  end.

(** *** Reference formulas, written from the description of the algorithm *)

(** The substring searched for in a joint label, and the entry of the cost
    table it stands for. *)
Definition name_patterns : list (string * string) :=
  [ ("Hypertension", "Hypertension"); ("Diabetes", "Diabetes");
    ("Cardio", "Cardiovascular Event") ].

(** Sum of the cost-table entries of the condition names present in the
    label. *)
Definition combined_cost (label : string) : Z :=
  fold_left Z.add
    (map (fun pc => cost_of pc.2)
         (List.filter (fun pc => contains pc.1 label) name_patterns)) 0%Z.

(** Discounted avoided cost of one joint entry in year [t]. *)
Definition joint_term (i : inputs) (t : Z) (item : string * A) : A :=
  discounted_value
    (improved_treated_osa i * item.2 * of_int (combined_cost item.1)
     * mean (dict_values risk_reduction))
    t (discount_rate i).

(** Cost avoided of year [t] after the loop over the single conditions. *)
Definition single_conditions_total (i : inputs) (t : Z) : A :=
  fold_left (condition_step i t) (dict_keys comorbidity_costs) (of_int 0).

(** The sidebar keys read from an uploaded record, with the profile entry
    each one feeds. *)
Definition single_keys : list (string * string) :=
  [ ("hypertension", "Hypertension"); ("diabetes", "Diabetes");
    ("cardio", "Cardiovascular Event") ].

Definition joint_keys : list (string * string) :=
  [ ("hypertension_diabetes", "Hypertension + Diabetes");
    ("hypertension_cardio", "Hypertension + Cardio");
    ("diabetes_cardio", "Diabetes + Cardio");
    ("hypertension_diabetes_cardio", "All Three") ].

(** The same inputs with another adherence, and with another joint
    profile. *)
Definition with_adherence (i : inputs) (a : A) : inputs :=
  {| population_size := population_size i;
     osa_prevalence := osa_prevalence i;
     current_diagnosis_rate := current_diagnosis_rate i;
     target_diagnosis_rate := target_diagnosis_rate i;
     treatment_adherence := a;
     cost_diagnosis := cost_diagnosis i;
     cost_treatment := cost_treatment i;
     discount_rate := discount_rate i;
     comorbidity_prevalence := comorbidity_prevalence i;
     joint_prevalence := joint_prevalence i |}.

Definition with_joint_prevalence (i : inputs) (jp : list (string * A)) : inputs :=
  {| population_size := population_size i;
     osa_prevalence := osa_prevalence i;
     current_diagnosis_rate := current_diagnosis_rate i;
     target_diagnosis_rate := target_diagnosis_rate i;
     treatment_adherence := treatment_adherence i;
     cost_diagnosis := cost_diagnosis i;
     cost_treatment := cost_treatment i;
     discount_rate := discount_rate i;
     comorbidity_prevalence := comorbidity_prevalence i;
     joint_prevalence := jp |}.

(** The sidebar defaults with the given diagnosis rates (in percent), a
    profile with Hypertension at 30% only and no joint profile. *)
Definition hypertension_only (current target : Z) : inputs :=
  {| population_size := 100000;
     osa_prevalence := percent 25;
     current_diagnosis_rate := percent current;
     target_diagnosis_rate := percent target;
     treatment_adherence := percent 60;
     cost_diagnosis := 1000;
     cost_treatment := 1500;
     discount_rate := percent 3;
     comorbidity_prevalence := <["Hypertension" := percent 30]> ∅;
     joint_prevalence := [] |}.

(** The same inputs with another single-condition profile, and with other
    diagnosis rates. *)
Definition with_comorbidity_prevalence (i : inputs) (cp : gmap string A) : inputs :=
  {| population_size := population_size i;
     osa_prevalence := osa_prevalence i;
     current_diagnosis_rate := current_diagnosis_rate i;
     target_diagnosis_rate := target_diagnosis_rate i;
     treatment_adherence := treatment_adherence i;
     cost_diagnosis := cost_diagnosis i;
     cost_treatment := cost_treatment i;
     discount_rate := discount_rate i;
     comorbidity_prevalence := cp;
     joint_prevalence := joint_prevalence i |}.

Definition with_diagnosis_rates (i : inputs) (current target : A) : inputs :=
  {| population_size := population_size i;
     osa_prevalence := osa_prevalence i;
     current_diagnosis_rate := current;
     target_diagnosis_rate := target;
     treatment_adherence := treatment_adherence i;
     cost_diagnosis := cost_diagnosis i;
     cost_treatment := cost_treatment i;
     discount_rate := discount_rate i;
     comorbidity_prevalence := comorbidity_prevalence i;
     joint_prevalence := joint_prevalence i |}.

(** *** The plotted curve (line 142) *)

(** [Series.cumsum()]: the running sums, the first one being the first
    element itself. *)
Fixpoint cumsum_from (acc : A) (l : list A) : list A :=
  match l with
  | [] => []
  | x :: l' => (acc + x) :: cumsum_from (acc + x) l'
  end.

Definition cumsum (l : list A) : list A :=
  match l with
  | [] => []
  | x :: l' => x :: cumsum_from x l'
  end.

(** [results_df['Net Savings'].cumsum()] *)
Definition cumulative_net_savings (i : inputs) : list A :=
  cumsum (map Net_Savings (snd (calculate_savings i))).

End Generic.
Arguments inputs A : clear implicits.
Arguments annual_record A : clear implicits.
Arguments json A : clear implicits.

(** Inputs in the intended range: no negative population, prevalence or
    joint fraction, a target diagnosis rate not below the current one, and a
    positive discount factor [1 + rate]. *)
Definition nonnegative_inputs (i : inputs Q) : Prop :=
  (0 ≤ population_size i)%Z ∧
  (0 <= osa_prevalence i)%Q ∧
  (current_diagnosis_rate i <= target_diagnosis_rate i)%Q ∧
  (0 < 1 + discount_rate i)%Q ∧
  map_Forall (fun _ v => (0 <= v)%Q) (comorbidity_prevalence i) ∧
  Forall (fun item => (0 <= item.2)%Q) (joint_prevalence i).

End Projector.

(** ** The Comorbidity Sampler (comorbidity_monte_carlo_sim.py) *)

Module Sampler.
Local Open Scope Q_scope.

(** The adjustable parameters of lines 6-17. *)
Record parameters := {
  n_patients : Z;
  p_hyp : Q;
  p_dia : Q;
  p_car : Q;
  p_hyp_dia : Q;
  p_hyp_car : Q;
  p_dia_car : Q;
  p_all_three : Q
}.

(** Lines 20-24. *)
Definition costs : list (string * Z) :=
  [ ("hypertension", 2000%Z); ("diabetes", 12000%Z); ("cardio", 30000%Z) ].

Definition Qltb (x y : Q) : bool := negb (Qle_bool y x).

(** Lines 27-45.  [np.random.rand()] reads the next element of the stream
    [rand]; the second component of the result is the position reached. *)
Definition simulate_patient (c : parameters) (rand : nat → Q) (pos : nat)
  : string * nat :=
  let r := rand pos in
  let pos := S pos in
  if Qltb r (p_all_three c) then
    ("hypertension_diabetes_cardio"%string, pos)
  else if Qltb r (p_all_three c + p_hyp_dia c) then
    ("hypertension_diabetes"%string, pos)
  else if Qltb r (p_all_three c + p_hyp_dia c + p_hyp_car c) then
    ("hypertension_cardio"%string, pos)
  else if Qltb r (p_all_three c + p_hyp_dia c + p_hyp_car c + p_dia_car c) then
    ("diabetes_cardio"%string, pos)
  else
    let flags := [] in
    let flags := if Qltb (rand pos) (p_hyp c)
                 then flags ++ ["hypertension"%string] else flags in
    let pos := S pos in
    let flags := if Qltb (rand pos) (p_dia c)
                 then flags ++ ["diabetes"%string] else flags in
    let pos := S pos in
    let flags := if Qltb (rand pos) (p_car c)
                 then flags ++ ["cardio"%string] else flags in
    let pos := S pos in
    match flags with
    | [] => ("none"%string, pos)
    | _ => (String.concat "_" (sorted flags), pos)
    end.

(** Line 48: [[simulate_patient() for _ in range(n_patients)]]. *)
Fixpoint simulate (c : parameters) (rand : nat → Q) (n : nat) (pos : nat)
  : list string :=
  match n with
  | O => []
  | S n' =>
      let '(cluster, pos') := simulate_patient c rand pos in
      cluster :: simulate c rand n' pos'
  end.

(** Line 49: [Counter(clusters)], a dict in order of first occurrence. *)
Fixpoint count_one (k : string) (counts : list (string * Z)) : list (string * Z) :=
  match counts with
  | [] => [(k, 1%Z)]
  | (k', v) :: counts' =>
      if String.eqb k' k then (k', (v + 1)%Z) :: counts'
      else (k', v) :: count_one k counts'
  end.

Definition Counter (clusters : list string) : list (string * Z) :=
  fold_left (fun counts k => count_one k counts) clusters [].

(** Lines 52-56. *)
Definition estimate_cost (cluster : string) : Z :=
  if String.eqb cluster "none" then 0%Z
  else
    let keys := split "_" cluster in
    fold_left Z.add (map (fun k => default 0%Z (dict_get costs k)) keys) 0%Z.

(** [v / n_patients] on two integers. *)
Definition true_div (v n : Z) : outcome Q :=
  if (n =? 0)%Z then Raises ZeroDivisionError
  else Returns (inject_Z v / inject_Z n).

(** The record written to monte_carlo_results.json (lines 64-69). *)
Record output := {
  population : Z;
  joint_prevalence : list (string * Q);
  average_costs : list (string * Z);
  total_cost : Z
}.

(** Lines 48-69. *)
Definition run (c : parameters) (rand : nat → Q) : outcome output :=
  let clusters := simulate c rand (Z.to_nat (n_patients c)) 0 in
  let counts := Counter clusters in
  let cost_by_cluster := map (fun k => (k, estimate_cost k)) (dict_keys counts) in
  let average_costs := map (fun k => (k, estimate_cost k)) (dict_keys counts) in
  prevalence ←
    comprehension
      (fun item => q ← true_div item.2 (n_patients c); mret (item.1, q)) counts;
  let total_cost :=
    fold_left Z.add
      (map (fun k => (default 0 (dict_get counts k)
                      * default 0 (dict_get cost_by_cluster k))%Z)
           (dict_keys counts)) 0%Z in
  mret {| population := n_patients c;
             joint_prevalence := prevalence;
             average_costs := average_costs;
             total_cost := total_cost |}.

End Sampler.

(** ** From the Sampler to the Projector *)

(** Lines 64-73 of the Sampler and line 47 of the Projector: the record is
    written with [json.dump] and read back with [json.load] as an object
    with four members; the two dicts become objects with the same keys and
    values, the two integers become numbers. *)
Definition monte_carlo_results (out : Sampler.output)
  : gmap string (Projector.json Q) :=
  <["population" := Projector.JNumber (inject_Z (Sampler.population out))]>
    (<["joint_prevalence" :=
         Projector.JObject (list_to_map (Sampler.joint_prevalence out))]>
      (<["average_costs" :=
           Projector.JObject
             (list_to_map (map (fun item => (item.1, inject_Z item.2))
                               (Sampler.average_costs out)))]>
        (<["total_cost" := Projector.JNumber (inject_Z (Sampler.total_cost out))]> ∅))).

(** * Properties *)

Import Projector.

(** ** Strings and tables *)

Lemma append_cons (c : ascii) (s t : string) :
  (String c s +:+ t)%string = String c (s +:+ t)%string.
Proof. reflexivity. Qed.

Lemma prefix_app (n h : string) :
  String.prefix n h = true ↔ ∃ post, h = (n +:+ post)%string.
Proof.
  revert h. induction n as [|c n IH]; intros h.
  - destruct h; simpl; split; eauto.
  - destruct h as [|d h]; simpl.
    + split; [discriminate | intros [post Hp]; discriminate].
    + destruct (Ascii.ascii_dec c d) as [->|Hne].
      * rewrite IH. split; intros [post Hp]; exists post;
          rewrite append_cons in *; congruence.
      * split; [discriminate | intros [post Hp]; rewrite append_cons in Hp; congruence].
Qed.

Lemma contains_nil (n : string) : contains n EmptyString = String.prefix n EmptyString.
Proof. destruct n; reflexivity. Qed.

Lemma contains_cons (n : string) (d : ascii) (h : string) :
  contains n (String d h) = String.prefix n (String d h) || contains n h.
Proof. reflexivity. Qed.

(** [contains] is substring containment. *)
Lemma contains_spec (n h : string) :
  contains n h = true ↔ ∃ pre post, h = (pre +:+ n +:+ post)%string.
Proof.
  induction h as [|d h IH].
  - rewrite contains_nil, prefix_app. split.
    + intros [post ->]. by exists EmptyString, post.
    + intros [pre [post Hp]]. destruct pre; [eauto | discriminate].
  - rewrite contains_cons, orb_true_iff, IH, prefix_app. split.
    + intros [[post Hp] | [pre [post ->]]].
      * by exists EmptyString, post.
      * by exists (String d pre), post.
    + intros [pre [post Hp]]. destruct pre as [|e pre].
      * left. eauto.
      * right. exists pre, post. rewrite append_cons in Hp. congruence.
Qed.

Section Structure.
Context {A : Type} `{Number A}.
Local Open Scope num_scope.

(** The constant tables have an entry for every condition the loop visits:
    the subscripts [risk_reduction[condition]] and
    [comorbidity_costs[condition]] cannot fail. *)
Lemma tables_total (k : string) :
  In k (dict_keys comorbidity_costs) →
  is_Some (dict_get comorbidity_costs k) ∧ is_Some (dict_get (risk_reduction (A:=A)) k).
Proof.
  simpl. intros [<-|[<-|[<-|[<-|[]]]]]; split; simpl; eauto.
Qed.

Lemma years_spec (t : Z) : In t years ↔ (1 ≤ t ≤ 20)%Z.
Proof.
  unfold years. rewrite in_map_iff. split.
  - intros [n [<- Hn]]. apply in_seq in Hn. lia.
  - intros Ht. exists (Z.to_nat t). split; [lia | apply in_seq; lia].
Qed.

(** The row appended for year [t]. *)
Lemma year_step_fold (i : inputs A) (ys : list Z) (total : A) (data : list (annual_record A)) :
  fold_left (year_step i) ys (total, data) =
  (fold_left add
     (map (fun t => yearly_savings_of i t
                    - discounted_value (treatment_cost_of i t) t (discount_rate i)) ys)
     total,
   data ++
   map (fun t =>
          {| Year := t;
             Cost_Avoided := yearly_savings_of i t;
             Treatment_Cost := discounted_value (treatment_cost_of i t) t (discount_rate i);
             Net_Savings := yearly_savings_of i t
                            - discounted_value (treatment_cost_of i t) t (discount_rate i) |})
       ys).
Proof.
  revert total data. induction ys as [|t ys IH]; intros total data; simpl.
  - by rewrite app_nil_r.
  - rewrite IH. f_equal. by rewrite <- app_assoc.
Qed.

Lemma series_length (i : inputs A) : length (snd (calculate_savings i)) = 20%nat.
Proof.
  unfold calculate_savings. rewrite year_step_fold. simpl. reflexivity.
Qed.

(** The three substring tests of the loop compute the sum over the
    condition names present in the label. *)
Lemma cost_estimate_combined (joint_key : string) :
  cost_estimate joint_key = combined_cost joint_key.
Proof.
  unfold cost_estimate, combined_cost, name_patterns. simpl.
  destruct (contains "Hypertension" joint_key),
           (contains "Diabetes" joint_key),
           (contains "Cardio" joint_key); reflexivity.
Qed.

Lemma joint_step_term (i : inputs A) (t : Z) (acc : A) (item : string * A) :
  joint_step i t acc item = acc + joint_term i t item.
Proof.
  destruct item as [joint_key joint_val]. unfold joint_step, joint_term.
  by rewrite cost_estimate_combined.
Qed.

Lemma joint_fold_terms (i : inputs A) (t : Z) (items : list (string * A)) (acc : A) :
  fold_left (joint_step i t) items acc =
  fold_left (fun acc item => acc + joint_term i t item) items acc.
Proof.
  revert acc. induction items as [|item items IH]; intros acc; simpl.
  - reflexivity.
  - by rewrite joint_step_term, IH.
Qed.

(** C1. The total returned by [calculate_savings] is the sum, taken in
    year order from 0, of the Net Savings column of the returned series,
    and the series has 20 rows.  The equality is syntactic: it holds for
    every interpretation of the arithmetic, so the running total cannot
    drift from the column sum. *)
Theorem total_npv_is_sum_of_net_savings (i : inputs A) :
  fst (calculate_savings i) = py_sum (map Net_Savings (snd (calculate_savings i)))
  ∧ length (snd (calculate_savings i)) = 20%nat.
Proof.
  split; [| apply series_length].
  unfold calculate_savings, py_sum. rewrite year_step_fold.
  cbn [fst snd app]. by rewrite map_map.
Qed.

(** C2. In the row of every year [t] of 1..20 the cost avoided is the
    total of the single-condition loop to which every entry
    [(label, joint_fraction)] of the joint profile has added, in order, the
    discounted value of
    [newly_treated * joint_fraction * combined_cost label * mean(risk reductions)],
    where [combined_cost] sums the cost-table entries of the names found in
    the label by substring search. *)
Theorem joint_entries_added_to_cost_avoided (i : inputs A) :
  map (fun r => (Year r, Cost_Avoided r)) (snd (calculate_savings i)) =
  map (fun t =>
         (t, fold_left
               (fun acc item =>
                  acc + discounted_value
                          (improved_treated_osa i * item.2
                           * of_int (combined_cost item.1)
                           * mean (dict_values risk_reduction))
                          t (discount_rate i))
               (joint_prevalence i) (single_conditions_total i t)))
      years.
Proof.
  unfold calculate_savings. rewrite year_step_fold. cbn [snd app].
  rewrite map_map. apply map_ext. intros t. cbn [Year Cost_Avoided].
  f_equal. unfold yearly_savings_of. apply joint_fold_terms.
Qed.

(** C3. The Treatment Cost column: in year 1 the newly treated population
    times the annual treatment cost plus the diagnosis cost, in the years
    2..20 the newly treated population times the annual treatment cost
    alone, each divided by [(1 + rate) ** t]. *)
Theorem treatment_cost_per_year (i : inputs A) :
  map (fun r => (Year r, Treatment_Cost r)) (snd (calculate_savings i)) =
  (1%Z, improved_treated_osa i * of_int (cost_treatment i + cost_diagnosis i)
        / ((of_int 1 + discount_rate i) ** 1))
  :: map (fun t =>
            (t, improved_treated_osa i * of_int (cost_treatment i)
                / ((of_int 1 + discount_rate i) ** t)))
         (map Z.of_nat (seq 2 19)).
Proof.
  unfold calculate_savings. rewrite year_step_fold. reflexivity.
Qed.

End Structure.
(** ** Exact rational arithmetic *)

Section Rational.
Local Open Scope Q_scope.

Ltac in_Q :=
  change (@add Q Q_Number) with Qplus in *;
  change (@sub Q Q_Number) with Qminus in *;
  change (@mul Q Q_Number) with Qmult in *;
  change (@div Q Q_Number) with Qdiv in *;
  change (@pow Q Q_Number) with Qpower in *;
  change (@of_int Q Q_Number) with inject_Z in *.

Lemma percent_25 : percent 25 == 0.25.
Proof. reflexivity. Qed.

Lemma condition_step_zero (i : inputs Q) (t : Z) (acc : Q) (c : string) :
  improved_treated_osa i == 0 → condition_step i t acc c == acc.
Proof.
  intros Hz. unfold condition_step, discounted_value. in_Q.
  rewrite Hz. unfold Qdiv. ring.
Qed.

Lemma joint_step_zero (i : inputs Q) (t : Z) (acc : Q) (item : string * Q) :
  improved_treated_osa i == 0 → joint_step i t acc item == acc.
Proof.
  intros Hz. destruct item as [k v]. unfold joint_step, discounted_value. in_Q.
  rewrite Hz. unfold Qdiv. ring.
Qed.

Lemma fold_unchanged {T : Type} (f : Q → T → Q) (l : list T) (acc : Q) :
  (∀ a x, f a x == a) → fold_left f l acc == acc.
Proof.
  intros Hf. revert acc. induction l as [|x l IH]; intros acc; simpl.
  - reflexivity.
  - rewrite IH. apply Hf.
Qed.

Lemma yearly_savings_zero (i : inputs Q) (t : Z) :
  improved_treated_osa i == 0 → yearly_savings_of i t == 0.
Proof.
  intros Hz. unfold yearly_savings_of.
  rewrite fold_unchanged by (intros; by apply joint_step_zero).
  rewrite fold_unchanged by (intros; by apply condition_step_zero).
  reflexivity.
Qed.

(** C6. When the target diagnosis rate equals the current one, the newly
    treated population is 0 and the cost avoided is 0 in each of the rows
    of the years 1..20.  [1 + rate] is taken nonzero (the slider offers 0
    to 10 percent): a float quotient with divisor 0 is not a number, which
    the rationals do not represent. *)
Theorem no_new_treatment_no_cost_avoided (i : inputs Q) :
  target_diagnosis_rate i == current_diagnosis_rate i →
  ¬ 1 + discount_rate i == 0 →
  improved_treated_osa i == 0
  ∧ Forall (fun r => Cost_Avoided r == 0) (snd (calculate_savings i))
  ∧ map Year (snd (calculate_savings i)) = years.
Proof.
  intros Heq _.
  assert (Hz : improved_treated_osa i == 0).
  { unfold improved_treated_osa. in_Q. rewrite Heq. ring. }
  split; [exact Hz |].
  unfold calculate_savings. rewrite year_step_fold. cbn [snd app]. split.
  - apply Forall_map, Forall_forall. intros t _. cbn [Cost_Avoided].
    by apply yearly_savings_zero.
  - rewrite map_map. cbn [Year]. apply map_id.
Qed.

Lemma no_new_treatment_no_cost_avoided_witness :
  let i := hypertension_only (A:=Q) 20 20 in
  improved_treated_osa i == 0
  ∧ Forall (fun r => Cost_Avoided r == 0) (snd (calculate_savings i))
  ∧ map Year (snd (calculate_savings i)) = years.
Proof.
  apply (no_new_treatment_no_cost_avoided (hypertension_only 20 20)).
  - reflexivity.
  - intros Hz. vm_compute in Hz. discriminate.
Defined.
(** C7. With rate 0 discounting is the identity, for every value and every
    year; the rate is the integer 0 or the slider value [0 / 100]. *)
Theorem discounted_value_rate_0 (v : Q) (year : Z) :
  discounted_value v year (of_int 0) == v
  ∧ discounted_value v year (percent 0) == v.
Proof.
  unfold discounted_value, percent. in_Q.
  assert (H1 : inject_Z 1 + inject_Z 0 == 1) by reflexivity.
  assert (H2 : inject_Z 1 + inject_Z 0 / inject_Z 100 == 1) by reflexivity.
  rewrite H1, H2, Qpower_1. split; field.
Qed.

Lemma all_three_cost_estimate : cost_estimate "All Three" = 0%Z.
Proof. reflexivity. Qed.

Lemma joint_step_proper (i : inputs Q) (t : Z) (acc acc' : Q) (item : string * Q) :
  acc == acc' → joint_step i t acc item == joint_step i t acc' item.
Proof.
  intros Ha. destruct item as [k v]. unfold joint_step. in_Q. by rewrite Ha.
Qed.

Lemma joint_fold_proper (i : inputs Q) (t : Z) (items : list (string * Q)) (acc acc' : Q) :
  acc == acc' →
  fold_left (joint_step i t) items acc == fold_left (joint_step i t) items acc'.
Proof.
  revert acc acc'. induction items as [|item items IH]; intros acc acc' Ha; simpl.
  - exact Ha.
  - apply IH. by apply joint_step_proper.
Qed.

Lemma all_three_step (i : inputs Q) (t : Z) (acc v : Q) :
  joint_step i t acc ("All Three"%string, v) == acc.
Proof.
  unfold joint_step. rewrite all_three_cost_estimate.
  unfold discounted_value. in_Q. unfold Qdiv. simpl inject_Z. ring.
Qed.

(** C10. The label of the three-condition cluster is "All Three" on both
    input paths; none of the three names occurs in it, its cost estimate is
    0, the step of the joint loop on such an entry leaves the year's cost
    avoided unchanged whatever the joint fraction, and so the cost avoided
    of every year is the same as without the entry. *)
Theorem all_three_contributes_nothing (i : inputs Q) (t : Z) (v : Q)
    (before after : list (string * Q)) :
  ¬ 1 + discount_rate i == 0 →
  (∀ a b c d, dict_keys (manual_joint_prevalence (A:=Q) a b c d) !! 3%nat
              = Some "All Three"%string)
  ∧ (∀ raw, dict_keys (uploaded_joint_prevalence (A:=Q) raw) !! 3%nat
            = Some "All Three"%string)
  ∧ contains "Hypertension" "All Three" = false
  ∧ contains "Diabetes" "All Three" = false
  ∧ contains "Cardio" "All Three" = false
  ∧ cost_estimate "All Three" = 0%Z
  ∧ (∀ acc, joint_step i t acc ("All Three"%string, v) == acc)
  ∧ yearly_savings_of
      (with_joint_prevalence i (before ++ ("All Three"%string, v) :: after)) t
    == yearly_savings_of (with_joint_prevalence i (before ++ after)) t.
Proof.
  intros _. repeat split; try reflexivity.
  - intros acc. apply all_three_step.
  - unfold yearly_savings_of. cbn [joint_prevalence with_joint_prevalence].
    rewrite !fold_left_app. cbn [fold_left].
    apply (joint_fold_proper i t after), (all_three_step i t).
Qed.

Lemma all_three_contributes_nothing_witness :
  let i := hypertension_only (A:=Q) 20 50 in
  let pairs : list (string * Q) :=
    [ ("Hypertension + Diabetes"%string, percent 12);
      ("Hypertension + Cardio"%string, percent 8);
      ("Diabetes + Cardio"%string, percent 5) ] in
  yearly_savings_of
    (with_joint_prevalence i (pairs ++ [("All Three"%string, percent 3)])) 1
  == yearly_savings_of (with_joint_prevalence i (pairs ++ [])) 1.
Proof.
  intros i pairs.
  apply (all_three_contributes_nothing i 1 (percent 3) pairs []).
  intros Hz. vm_compute in Hz. discriminate.
Defined.

(** *** Adherence *)

Lemma condition_step_linear (i : inputs Q) (a : Q) (t : Z) (acc acc' : Q) (c : string) :
  acc == a * acc' →
  condition_step (with_adherence i a) t acc c
  == a * condition_step (with_adherence i 1) t acc' c.
Proof.
  intros Ha. unfold condition_step, discounted_value, improved_treated_osa.
  cbn [population_size osa_prevalence current_diagnosis_rate target_diagnosis_rate
       treatment_adherence discount_rate comorbidity_prevalence with_adherence].
  in_Q. rewrite Ha. unfold Qdiv. ring.
Qed.

Lemma joint_step_linear (i : inputs Q) (a : Q) (t : Z) (acc acc' : Q) (item : string * Q) :
  acc == a * acc' →
  joint_step (with_adherence i a) t acc item
  == a * joint_step (with_adherence i 1) t acc' item.
Proof.
  intros Ha. destruct item as [k v].
  unfold joint_step, discounted_value, improved_treated_osa.
  cbn [population_size osa_prevalence current_diagnosis_rate target_diagnosis_rate
       treatment_adherence discount_rate with_adherence].
  in_Q. rewrite Ha. unfold Qdiv. ring.
Qed.

Lemma fold_linear {T : Type} (f g : Q → T → Q) (a : Q) (l : list T) (acc acc' : Q) :
  (∀ x y y', y == a * y' → f y x == a * g y' x) →
  acc == a * acc' →
  fold_left f l acc == a * fold_left g l acc'.
Proof.
  intros Hfg. revert acc acc'. induction l as [|x l IH]; intros acc acc' Ha; simpl.
  - exact Ha.
  - apply IH. by apply Hfg.
Qed.

(** The cost avoided of a year is proportional to the adherence. *)
Lemma yearly_savings_linear (i : inputs Q) (a : Q) (t : Z) :
  yearly_savings_of (with_adherence i a) t
  == a * yearly_savings_of (with_adherence i 1) t.
Proof.
  unfold yearly_savings_of.
  cbn [joint_prevalence with_adherence].
  apply fold_linear.
  - intros item y y' Hy. by apply joint_step_linear.
  - apply fold_linear.
    + intros c y y' Hy. by apply condition_step_linear.
    + in_Q. simpl inject_Z. ring.
Qed.

Lemma discount_nonneg (x r : Q) (t : Z) :
  0 <= x → 0 < 1 + r → 0 <= discounted_value x t r.
Proof.
  intros Hx Hr. unfold discounted_value. in_Q.
  change (inject_Z 1) with 1. unfold Qdiv.
  apply Qmult_le_0_compat; [exact Hx |].
  apply Qinv_le_0_compat, Qlt_le_weak, Qpower_0_lt, Hr.
Qed.

Lemma cost_of_nonneg (k : string) : (0 ≤ cost_of k)%Z.
Proof.
  unfold cost_of, comorbidity_costs. cbn [dict_get].
  repeat match goal with
         | |- context [String.eqb ?a k] => destruct (String.eqb a k)
         end; simpl; lia.
Qed.

Lemma reduction_of_nonneg (k : string) : 0 <= reduction_of (A:=Q) k.
Proof.
  unfold reduction_of, risk_reduction. cbn [dict_get].
  repeat match goal with
         | |- context [String.eqb ?a k] => destruct (String.eqb a k)
         end; by vm_compute.
Qed.

Lemma cost_estimate_nonneg (k : string) : (0 ≤ cost_estimate k)%Z.
Proof.
  rewrite cost_estimate_combined. unfold combined_cost, name_patterns. simpl.
  destruct (contains "Hypertension" k), (contains "Diabetes" k),
           (contains "Cardio" k); by vm_compute.
Qed.

Lemma mean_reduction_nonneg : 0 <= mean (dict_values (risk_reduction (A:=Q))).
Proof. by vm_compute. Qed.

Lemma inject_Z_nonneg (z : Z) : (0 ≤ z)%Z → 0 <= inject_Z z.
Proof. intros Hz. change 0 with (inject_Z 0). by rewrite <- Zle_Qle. Qed.

Lemma improved_nonneg (i : inputs Q) (a : Q) :
  nonnegative_inputs i → 0 <= a → 0 <= improved_treated_osa (with_adherence i a).
Proof.
  intros (Hp & Ho & Hd & _) Ha. unfold improved_treated_osa.
  cbn [population_size osa_prevalence current_diagnosis_rate target_diagnosis_rate
       treatment_adherence with_adherence]. in_Q.
  apply inject_Z_nonneg in Hp.
  repeat apply Qmult_le_0_compat; try assumption. lra.
Qed.

Lemma prevalence_nonneg (i : inputs Q) (c : string) :
  nonnegative_inputs i → 0 <= default 0 (comorbidity_prevalence i !! c).
Proof.
  intros (_ & _ & _ & _ & Hm & _).
  destruct (comorbidity_prevalence i !! c) as [p|] eqn:Hc; simpl.
  - exact (Hm c p Hc).
  - apply Qle_refl.
Qed.

Lemma fold_nonneg {T : Type} (f : Q → T → Q) (P : T → Prop) (l : list T) (acc : Q) :
  (∀ y x, P x → 0 <= y → 0 <= f y x) → Forall P l → 0 <= acc →
  0 <= fold_left f l acc.
Proof.
  intros Hf Hl. revert acc. induction Hl as [|x l Hx Hl IH]; intros acc Ha; simpl.
  - exact Ha.
  - apply IH. by apply Hf.
Qed.

(** With inputs in the intended range the cost avoided at full adherence
    is not negative. *)
Lemma full_adherence_nonneg (i : inputs Q) (t : Z) :
  nonnegative_inputs i → 0 <= yearly_savings_of (with_adherence i 1) t.
Proof.
  intros Hi.
  assert (Him : 0 <= improved_treated_osa (with_adherence i 1))
    by (apply improved_nonneg; [exact Hi | lra]).
  pose proof Hi as (_ & _ & _ & Hr & _ & Hj).
  unfold yearly_savings_of. cbn [joint_prevalence with_adherence].
  apply (fold_nonneg _ (fun item => 0 <= item.2)); [| exact Hj |].
  - intros y [k v] Hv Hy. unfold joint_step.
    cbn [discount_rate with_adherence].
    change (y + ?d) with (Qplus y d).
    apply (Qplus_le_compat 0 y 0); [exact Hy |]. 
    apply discount_nonneg; [| exact Hr]. in_Q.
    apply Qmult_le_0_compat; [| apply mean_reduction_nonneg].
    apply Qmult_le_0_compat; [| apply inject_Z_nonneg, cost_estimate_nonneg].
    apply Qmult_le_0_compat; [exact Him | exact Hv].
  - apply (fold_nonneg _ (fun _ => True)); [| by apply Forall_forall | by vm_compute].
    intros y c _ Hy. unfold condition_step.
    cbn [discount_rate comorbidity_prevalence with_adherence].
    change (y + ?d) with (Qplus y d).
    apply (Qplus_le_compat 0 y 0); [exact Hy |].
    apply discount_nonneg; [| exact Hr]. in_Q.
    apply Qmult_le_0_compat; [| apply inject_Z_nonneg, cost_of_nonneg].
    apply Qmult_le_0_compat; [| apply reduction_of_nonneg].
    apply Qmult_le_0_compat; [exact Him | apply (prevalence_nonneg i c Hi)].
Qed.

Lemma cost_avoided_column (i : inputs Q) :
  snd (calculate_savings i) =
  map (fun t =>
         {| Year := t;
            Cost_Avoided := yearly_savings_of i t;
            Treatment_Cost := discounted_value (treatment_cost_of i t) t (discount_rate i);
            Net_Savings := yearly_savings_of i t
                           - discounted_value (treatment_cost_of i t) t (discount_rate i) |})
      years.
Proof. unfold calculate_savings. by rewrite year_step_fold. Qed.

(** C4, as the code has it.  The cost avoided of a year is the adherence
    times the cost avoided at full adherence.  For inputs in the intended
    range (in particular a target rate not below the current rate) a
    larger adherence gives, in every row, a cost avoided that is not
    smaller; it is strictly larger in the years whose cost avoided at full
    adherence is positive. *)
Theorem adherence_monotone (i : inputs Q) (a1 a2 : Q) :
  nonnegative_inputs i → a1 <= a2 →
  Forall2 (fun r1 r2 => Year r1 = Year r2 ∧ Cost_Avoided r1 <= Cost_Avoided r2)
          (snd (calculate_savings (with_adherence i a1)))
          (snd (calculate_savings (with_adherence i a2)))
  ∧ (a1 < a2 → ∀ t, 0 < yearly_savings_of (with_adherence i 1) t →
     yearly_savings_of (with_adherence i a1) t
     < yearly_savings_of (with_adherence i a2) t).
Proof.
  intros Hi Ha. split.
  - rewrite !cost_avoided_column. apply Forall2_fmap, Forall_Forall2_diag, Forall_forall.
    intros t _. cbn [Year Cost_Avoided]. split; [reflexivity |].
    rewrite (yearly_savings_linear i a1), (yearly_savings_linear i a2).
    apply Qmult_le_compat_r; [exact Ha | by apply full_adherence_nonneg].
  - intros Hlt t Hpos.
    rewrite (yearly_savings_linear i a1), (yearly_savings_linear i a2).
    by apply Qmult_lt_compat_r.
Qed.

Lemma adherence_monotone_witness :
  let i := hypertension_only (A:=Q) 20 50 in
  Forall2 (fun r1 r2 => Year r1 = Year r2 ∧ Cost_Avoided r1 <= Cost_Avoided r2)
          (snd (calculate_savings (with_adherence i 0.5)))
          (snd (calculate_savings (with_adherence i 0.6)))
  ∧ (0.5 < 0.6 → ∀ t, 0 < yearly_savings_of (with_adherence i 1) t →
     yearly_savings_of (with_adherence i 0.5) t
     < yearly_savings_of (with_adherence i 0.6) t).
Proof.
  apply (adherence_monotone (hypertension_only 20 50) 0.5 0.6).
  - unfold nonnegative_inputs. cbn [hypertension_only population_size osa_prevalence
      current_diagnosis_rate target_diagnosis_rate discount_rate
      comorbidity_prevalence joint_prevalence].
    repeat split; try (by vm_compute).
    apply map_Forall_insert_2; [by vm_compute | apply map_Forall_empty].
  - by vm_compute.
Defined.

(** With the target rate (20%) below the current rate (50%) the year-1 cost
    avoided falls when the adherence goes from 50% to 60%. *)
Lemma adherence_counterexample :
  let i := hypertension_only (A:=Q) 50 20 in
  percent 50 < percent 60
  ∧ ¬ Forall2 (fun r1 r2 => Cost_Avoided r1 <= Cost_Avoided r2)
        (snd (calculate_savings (with_adherence i (percent 50))))
        (snd (calculate_savings (with_adherence i (percent 60)))).
Proof.
  split; [by vm_compute |].
  rewrite !cost_avoided_column. unfold years. cbn [seq map].
  intros Hall. apply Forall2_cons_1 in Hall as [Hle _].
  cbn [Cost_Avoided] in Hle. vm_compute in Hle. by apply Hle.
Qed.

(** The example of the specification, evaluated: the formula without the
    cost of the condition is neither the Hypertension term of year 1 nor
    close to 1,572.82. *)
Lemma hypertension_example_counterexample :
  let i := hypertension_only (A:=Q) 20 50 in
  ¬ (condition_step i 1 (of_int 0) "Hypertension"
     == 100000 * 0.25 * 0.30 * 0.60 * 0.30 * 0.40 / 1.03)
  ∧ ¬ (1572.81 <= condition_step i 1 (of_int 0) "Hypertension" <= 1572.83)
  ∧ ¬ (1572.81 <= 100000 * 0.25 * 0.30 * 0.60 * 0.30 * 0.40 / 1.03 <= 1572.83).
Proof.
  repeat split.
  - intros Heq. vm_compute in Heq. discriminate.
  - intros [_ Hle]. vm_compute in Hle. by apply Hle.
  - intros [Hle _]. vm_compute in Hle. by apply Hle.
Qed.

(** C5, as the code has it.  In the example the Hypertension term of year 1
    carries the cost of the condition, 2000: it is
    [100000*0.25*0.30*0.60 * 0.30 * 0.40 * 2000 / 1.03], about
    1,048,543.69, and it is the whole cost avoided of the first row. *)
Theorem hypertension_example :
  let i := hypertension_only (A:=Q) 20 50 in
  condition_step i 1 (of_int 0) "Hypertension"
    == 100000 * 0.25 * 0.30 * 0.60 * 0.30 * 0.40 * 2000 / 1.03
  ∧ 1048543.68 < condition_step i 1 (of_int 0) "Hypertension" < 1048543.70
  ∧ (Cost_Avoided <$> snd (calculate_savings i) !! 0%nat)
    = Some (yearly_savings_of i 1)
  ∧ yearly_savings_of i 1 == condition_step i 1 (of_int 0) "Hypertension".
Proof.
  repeat split; by vm_compute.
Qed.

(** The regression fixture for the treatment cost of year 1:
    [100000*0.25*0.30*0.60*(1500+1000)/1.03], about 10,922,330.10. *)
Example year_1_treatment_cost_fixture :
  let i := hypertension_only (A:=Q) 20 50 in
  (Treatment_Cost <$> snd (calculate_savings i) !! 0%nat)
    = Some (discounted_value (treatment_cost_of i 1) 1 (discount_rate i))
  ∧ discounted_value (treatment_cost_of i 1) 1 (discount_rate i)
    == 100000 * 0.25 * 0.30 * 0.60 * (1500 + 1000) / 1.03
  ∧ 10922330.09 < discounted_value (treatment_cost_of i 1) 1 (discount_rate i)
    < 10922330.10.
Proof.
  repeat split; by vm_compute.
Qed.

End Rational.

(** ** The upload path *)

Section Upload.
Context {A : Type} `{Number A}.

(** C8. Whatever object the uploaded record holds under [joint_prevalence]
    (none counts as the empty object), the load succeeds; each of the seven
    keys that the object lacks gives the entry it feeds the value 0; and
    the Depression entry is [0.25], whatever the record contains. *)
Theorem upload_defaults (mc_data : gmap string (json A)) (prevalence_raw : gmap string A) :
  prevalence_raw_of mc_data = Returns prevalence_raw →
  ∃ comorbidity_prevalence joint_prevalence,
    load_monte_carlo (Some mc_data) = Returns (comorbidity_prevalence, joint_prevalence)
    ∧ (∀ key label, In (key, label) single_keys →
         prevalence_raw !! key = None →
         comorbidity_prevalence !! label = Some (of_int 0))
    ∧ (∀ key label, In (key, label) joint_keys →
         prevalence_raw !! key = None →
         dict_get joint_prevalence label = Some (of_int 0))
    ∧ comorbidity_prevalence !! "Depression"%string = Some (percent 25)
    ∧ dom comorbidity_prevalence
      = list_to_set (dict_keys comorbidity_costs)
    ∧ dict_keys joint_prevalence = map snd joint_keys.
Proof.
  intros Hraw. eexists _, _. split.
  { unfold load_monte_carlo. rewrite Hraw. reflexivity. }
  split; [| split; [| split; [| split]]].
  - intros key label Hin Hnone. unfold uploaded_comorbidity_prevalence.
    simpl in Hin. destruct Hin as [Heq|[Heq|[Heq|[]]]];
      injection Heq as <- <-; rewrite Hnone; by simplify_map_eq.
  - intros key label Hin Hnone. unfold uploaded_joint_prevalence.
    simpl in Hin. destruct Hin as [Heq|[Heq|[Heq|[Heq|[]]]]];
      injection Heq as <- <-; rewrite Hnone; reflexivity.
  - unfold uploaded_comorbidity_prevalence. by simplify_map_eq.
  - unfold uploaded_comorbidity_prevalence. rewrite !dom_insert_L, dom_empty_L.
    simpl. set_solver.
  - reflexivity.
Qed.

End Upload.

Lemma upload_defaults_witness :
  ∃ comorbidity_prevalence joint_prevalence,
    load_monte_carlo (A:=Q) (Some ∅) = Returns (comorbidity_prevalence, joint_prevalence)
    ∧ (∀ key label, In (key, label) single_keys →
         (∅ : gmap string Q) !! key = None →
         comorbidity_prevalence !! label = Some (of_int 0))
    ∧ (∀ key label, In (key, label) joint_keys →
         (∅ : gmap string Q) !! key = None →
         dict_get joint_prevalence label = Some (of_int 0))
    ∧ comorbidity_prevalence !! "Depression"%string = Some (percent 25)
    ∧ dom comorbidity_prevalence
      = list_to_set (dict_keys comorbidity_costs)
    ∧ dict_keys joint_prevalence = map snd joint_keys.
Proof.
  apply (upload_defaults (A:=Q) ∅ ∅). reflexivity.
Defined.

(** ** The Sampler *)

Section SamplerRun.
Import Sampler.
Local Open Scope Q_scope.

Lemma comprehension_returns {T U : Type} (f : T → outcome U) (l : list T) :
  (∀ x, ∃ y, f x = Returns y) → ∃ ys, comprehension f l = Returns ys.
Proof.
  intros Hf. induction l as [|x l [ys IH]]; simpl.
  - by eexists.
  - destruct (Hf x) as [y Hy]. rewrite Hy. simpl. rewrite IH. simpl. by eexists.
Qed.

(** The script ends normally for every population count: with a count
    that is not positive nobody is simulated and the comprehension that
    divides has no element to work on; with a positive count the divisor is
    not 0. *)
Lemma run_returns (c : parameters) (rand : nat → Q) :
  ∃ out, run c rand = Returns out.
Proof.
  unfold run. destruct (Z.eq_dec (n_patients c) 0%Z) as [Hz|Hnz].
  - rewrite Hz. simpl. by eexists.
  - destruct (comprehension_returns
                (fun item : string * Z =>
                   q ← true_div item.2 (n_patients c); mret (item.1, q))
                (Counter (simulate c rand (Z.to_nat (n_patients c)) 0)))
      as [ys Hys].
    + intros item. unfold true_div.
      destruct (Z.eqb_spec (n_patients c) 0%Z) as [?|_]; [contradiction |].
      simpl. by eexists.
    + rewrite Hys. simpl. by eexists.
Qed.

(** C9. With a population count of 0 the run ends normally (no
    [ZeroDivisionError]); the prevalence mapping of the record it writes is
    empty, so that no prevalence in it differs from 0 and every cluster
    read from it with default 0 has prevalence 0; and the total cost is 0. *)
Theorem zero_population_run (c : parameters) (rand : nat → Q) :
  n_patients c = 0%Z →
  ∃ out, run c rand = Returns out
    ∧ population out = 0%Z
    ∧ joint_prevalence out = []
    ∧ Forall (fun item => item.2 == 0) (joint_prevalence out)
    ∧ (∀ cluster, default 0 (dict_get (joint_prevalence out) cluster) = 0)
    ∧ total_cost out = 0%Z.
Proof.
  intros Hz. unfold run. rewrite Hz. simpl.
  eexists. split; [reflexivity |]. simpl. repeat split; constructor.
Qed.

End SamplerRun.

Lemma zero_population_run_witness :
  let c := {| Sampler.n_patients := 0;
              Sampler.p_hyp := 0.30; Sampler.p_dia := 0.15; Sampler.p_car := 0.10;
              Sampler.p_hyp_dia := 0.12; Sampler.p_hyp_car := 0.08;
              Sampler.p_dia_car := 0.05; Sampler.p_all_three := 0.03 |}%Q in
  ∃ out, Sampler.run c (fun _ => 0.5%Q) = Returns out
    ∧ Sampler.population out = 0%Z
    ∧ Sampler.joint_prevalence out = []
    ∧ Forall (fun item => (item.2 == 0)%Q) (Sampler.joint_prevalence out)
    ∧ (∀ cluster, default 0%Q (dict_get (Sampler.joint_prevalence out) cluster) = 0%Q)
    ∧ Sampler.total_cost out = 0%Z.
Proof.
  intros c. apply (zero_population_run c (fun _ => 0.5%Q)). reflexivity.
Defined.

(** * Further properties of the Projector *)

Section Rows.
Context {A : Type} `{Number A}.
Local Open Scope num_scope.

(** The series lists the years 1..20 in order, and in every row the net
    savings are the cost avoided minus the treatment cost of that row. *)
Theorem rows_are_consistent (i : inputs A) :
  map Year (snd (calculate_savings i)) = years
  ∧ Forall (fun r => Net_Savings r = Cost_Avoided r - Treatment_Cost r)
           (snd (calculate_savings i)).
Proof.
  unfold calculate_savings. rewrite year_step_fold. cbn [snd app]. split.
  - rewrite map_map. apply map_id.
  - apply Forall_map, Forall_forall. intros t _. reflexivity.
Qed.

(** Two profiles that agree, read with default 0, on the four conditions of
    the cost table give the same result. *)
Lemma profile_read_on_cost_table (i : inputs A) (cp : gmap string A) :
  (∀ c, In c (dict_keys comorbidity_costs) →
        default (of_int 0) (cp !! c)
        = default (of_int 0) (comorbidity_prevalence i !! c)) →
  calculate_savings (with_comorbidity_prevalence i cp) = calculate_savings i.
Proof.
  intros Hagree.
  assert (Hys : ∀ t, yearly_savings_of (with_comorbidity_prevalence i cp) t
                     = yearly_savings_of i t).
  { intros t. unfold yearly_savings_of.
    cbn [joint_prevalence with_comorbidity_prevalence].
    change (joint_step (with_comorbidity_prevalence i cp) t) with (joint_step i t).
    f_equal.
    assert (Hfold : ∀ l acc, (∀ c, In c l → In c (dict_keys comorbidity_costs)) →
              fold_left (condition_step (with_comorbidity_prevalence i cp) t) l acc
              = fold_left (condition_step i t) l acc).
    { induction l as [|c l IH]; intros acc Hl; [reflexivity |].
      cbn [fold_left]. rewrite IH by (intros c' Hc'; apply Hl; by right).
      f_equal. unfold condition_step.
      cbn [comorbidity_prevalence with_comorbidity_prevalence].
      rewrite (Hagree c) by (apply Hl; by left). reflexivity. }
    apply Hfold. auto. }
  unfold calculate_savings. rewrite !year_step_fold.
  change (discount_rate (with_comorbidity_prevalence i cp)) with (discount_rate i).
  change (treatment_cost_of (with_comorbidity_prevalence i cp)) with (treatment_cost_of i).
  f_equal.
  - f_equal. apply map_ext. intros t. by rewrite Hys.
  - f_equal. apply map_ext. intros t. by rewrite Hys.
Qed.

(** An entry of the single-condition profile under a name that is not one
    of the four conditions of the cost table is never read: adding it, or
    changing it, leaves the total and the whole series unchanged. *)
Theorem unknown_condition_ignored (i : inputs A) (name : string) (v : A) :
  ¬ In name (dict_keys comorbidity_costs) →
  calculate_savings
    (with_comorbidity_prevalence i (<[name := v]> (comorbidity_prevalence i)))
  = calculate_savings i.
Proof.
  intros Hname. apply profile_read_on_cost_table. intros c Hc.
  rewrite lookup_insert_ne; [reflexivity |]. intros ->. by apply Hname.
Qed.

(** A condition that the profile does not mention counts with prevalence
    0: the result is the one of the profile with the explicit entry 0. *)
Theorem missing_condition_counts_as_zero (i : inputs A) (name : string) :
  comorbidity_prevalence i !! name = None →
  calculate_savings
    (with_comorbidity_prevalence i (<[name := of_int 0]> (comorbidity_prevalence i)))
  = calculate_savings i.
Proof.
  intros Hnone. apply profile_read_on_cost_table. intros c _.
  destruct (decide (name = c)) as [->|Hne].
  - by rewrite lookup_insert_eq, Hnone.
  - by rewrite lookup_insert_ne.
Qed.

End Rows.

Lemma unknown_condition_ignored_witness :
  calculate_savings
    (with_comorbidity_prevalence (hypertension_only (A:=Q) 20 50)
       (<["Obesity"%string := percent 40]>
          (comorbidity_prevalence (hypertension_only (A:=Q) 20 50))))
  = calculate_savings (hypertension_only (A:=Q) 20 50).
Proof.
  apply (unknown_condition_ignored (hypertension_only 20 50) "Obesity" (percent 40)).
  cbn. intros [Hc|[Hc|[Hc|[Hc|[]]]]]; discriminate Hc.
Defined.

Lemma missing_condition_counts_as_zero_witness :
  calculate_savings
    (with_comorbidity_prevalence (hypertension_only (A:=Q) 20 50)
       (<["Diabetes"%string := of_int 0]>
          (comorbidity_prevalence (hypertension_only (A:=Q) 20 50))))
  = calculate_savings (hypertension_only (A:=Q) 20 50).
Proof.
  apply (missing_condition_counts_as_zero (hypertension_only 20 50) "Diabetes").
  reflexivity.
Defined.

(** ** Labels and the uploaded record *)

(** The cost estimate of a joint label lies between 0 and 44000; it is 0
    exactly when none of the three names occurs in the label and 44000
    exactly when all three occur. *)
Theorem cost_estimate_range (joint_key : string) :
  (0 ≤ cost_estimate joint_key ≤ 44000)%Z
  ∧ (cost_estimate joint_key = 0%Z ↔
     contains "Hypertension" joint_key = false
     ∧ contains "Diabetes" joint_key = false
     ∧ contains "Cardio" joint_key = false)
  ∧ (cost_estimate joint_key = 44000%Z ↔
     contains "Hypertension" joint_key = true
     ∧ contains "Diabetes" joint_key = true
     ∧ contains "Cardio" joint_key = true).
Proof.
  unfold cost_estimate.
  destruct (contains "Hypertension" joint_key),
           (contains "Diabetes" joint_key),
           (contains "Cardio" joint_key);
    vm_compute; intuition (discriminate || congruence).
Qed.

Section Uploaded.
Context {A : Type} `{Number A}.

(** The upload path reads seven keys of the prevalence object and nothing
    else: two objects that agree on these keys give the same two
    profiles. *)
Theorem upload_reads_seven_keys (raw1 raw2 : gmap string A) :
  (∀ key, In key (map fst (single_keys ++ joint_keys)) → raw1 !! key = raw2 !! key) →
  uploaded_comorbidity_prevalence raw1 = uploaded_comorbidity_prevalence raw2
  ∧ uploaded_joint_prevalence raw1 = uploaded_joint_prevalence raw2.
Proof.
  intros Hagree.
  unfold uploaded_comorbidity_prevalence, uploaded_joint_prevalence.
  rewrite !(Hagree "hypertension"%string), !(Hagree "diabetes"%string),
          !(Hagree "cardio"%string), !(Hagree "hypertension_diabetes"%string),
          !(Hagree "hypertension_cardio"%string), !(Hagree "diabetes_cardio"%string),
          !(Hagree "hypertension_diabetes_cardio"%string);
    cbn; tauto.
Qed.

End Uploaded.

Lemma upload_reads_seven_keys_witness :
  uploaded_comorbidity_prevalence (A:=Q) (<["none"%string := 0.5%Q]> ∅)
  = uploaded_comorbidity_prevalence ∅
  ∧ uploaded_joint_prevalence (A:=Q) (<["none"%string := 0.5%Q]> ∅)
    = uploaded_joint_prevalence ∅.
Proof.
  apply (upload_reads_seven_keys (A:=Q) (<["none"%string := 0.5%Q]> ∅) ∅).
  intros key Hkey. cbn in Hkey.
  destruct Hkey as [<-|[<-|[<-|[<-|[<-|[<-|[<-|[]]]]]]]]; reflexivity.
Defined.

Lemma list_to_map_dict_get {V : Type} (d : list (string * V)) (k : string) :
  (list_to_map d : gmap string V) !! k = dict_get d k.
Proof.
  induction d as [|[k' v] d IH]; [reflexivity |].
  cbn [list_to_map foldr dict_get fst snd].
  destruct (String.eqb_spec k' k) as [->|Hne].
  - apply lookup_insert_eq.
  - by rewrite lookup_insert_ne.
Qed.

(** The record of a Sampler run, read back by the upload path: the load
    succeeds, each of the seven entries is the prevalence the Sampler
    recorded under the key it is read from, 0 if the run produced no such
    cluster, and Depression is [0.25]. *)
Theorem sampler_record_loaded (out : Sampler.output) :
  ∃ comorbidity_prevalence joint_prevalence,
    load_monte_carlo (Some (monte_carlo_results out))
    = Returns (comorbidity_prevalence, joint_prevalence)
    ∧ Forall (fun kl => comorbidity_prevalence !! kl.2
                        = Some (default 0%Q (dict_get (Sampler.joint_prevalence out) kl.1)))
             single_keys
    ∧ Forall (fun kl => dict_get joint_prevalence kl.2
                        = Some (default 0%Q (dict_get (Sampler.joint_prevalence out) kl.1)))
             joint_keys
    ∧ comorbidity_prevalence !! "Depression"%string = Some (percent 25).
Proof.
  eexists _, _. split; [reflexivity |].
  unfold uploaded_comorbidity_prevalence, uploaded_joint_prevalence.
  rewrite !list_to_map_dict_get.
  split; [| split].
  - repeat constructor.
  - repeat constructor.
  - reflexivity.
Qed.

(** ** Further properties over the rationals *)

Section RationalSeries.
Local Open Scope Q_scope.

Ltac unfold_Q :=
  change (@add Q Q_Number) with Qplus in *;
  change (@sub Q Q_Number) with Qminus in *;
  change (@mul Q Q_Number) with Qmult in *;
  change (@div Q Q_Number) with Qdiv in *;
  change (@pow Q Q_Number) with Qpower in *;
  change (@of_int Q Q_Number) with inject_Z in *.

Lemma sum_map_linear {T : Type} (f g : T → Q) (a : Q) (l : list T) (acc acc' : Q) :
  (∀ t, f t == a * g t) → acc == a * acc' →
  fold_left Qplus (map f l) acc == a * fold_left Qplus (map g l) acc'.
Proof.
  intros Hfg. revert acc acc'. induction l as [|t l IH]; intros acc acc' Ha; simpl.
  - exact Ha.
  - apply IH. rewrite Ha, (Hfg t). ring.
Qed.

Lemma discount_step (x r : Q) (t : Z) :
  ¬ 1 + r == 0 →
  discounted_value x (t + 1) r == discounted_value x t r / (1 + r).
Proof.
  intros Hr. unfold discounted_value. unfold_Q. change (inject_Z 1) with 1.
  rewrite Qpower_plus by exact Hr. change ((1 + r) ^ 1) with (1 + r).
  unfold Qdiv. rewrite Qinv_mult_distr. ring.
Qed.

(** From one year to the next the cost avoided is divided by [1 + rate]:
    the column decays geometrically, and with rate 0 it is constant. *)
Theorem cost_avoided_decays (i : inputs Q) (n : nat) (r1 r2 : annual_record Q) :
  ¬ 1 + discount_rate i == 0 →
  snd (calculate_savings i) !! n = Some r1 →
  snd (calculate_savings i) !! S n = Some r2 →
  Cost_Avoided r2 == Cost_Avoided r1 / (1 + discount_rate i).
Proof.
  intros Hr. rewrite cost_avoided_column.
  change (map ?f years) with (f <$> years). rewrite !list_lookup_fmap.
  unfold years. change (map Z.of_nat (seq 1 20)) with (Z.of_nat <$> seq 1 20).
  rewrite !list_lookup_fmap.
  destruct (seq 1 20 !! n) as [t1|] eqn:H1; [| discriminate].
  destruct (seq 1 20 !! S n) as [t2|] eqn:H2; [| discriminate].
  apply lookup_seq in H1 as [-> _]. apply lookup_seq in H2 as [-> _].
  cbn [fmap option_fmap option_map]. intros [= <-] [= <-]. cbn [Cost_Avoided].
  change (1 + S n)%nat with (S (S n)). change (1 + n)%nat with (S n).
  rewrite (Nat2Z.inj_succ (S n)). unfold Z.succ.
  generalize (Z.of_nat (S n)). intros t.
  unfold yearly_savings_of.
  assert (Hlin : ∀ {T} (f g : Q → T → Q) (l : list T) acc acc',
            (∀ x y y', y == y' / (1 + discount_rate i) →
                       f y x == g y' x / (1 + discount_rate i)) →
            acc == acc' / (1 + discount_rate i) →
            fold_left f l acc == fold_left g l acc' / (1 + discount_rate i)).
  { intros T f g l. induction l as [|x l IH]; intros acc acc' Hfg Ha; simpl.
    - exact Ha.
    - apply IH; [exact Hfg | by apply Hfg]. }
  apply Hlin; [| apply Hlin].
  - intros [k v] y y' Hy. unfold joint_step. unfold_Q.
    rewrite Hy, discount_step by exact Hr. unfold Qdiv. ring.
  - intros c y y' Hy. unfold condition_step. unfold_Q.
    rewrite Hy, discount_step by exact Hr. unfold Qdiv. ring.
  - unfold_Q. unfold Qdiv. simpl inject_Z. ring.
Qed.

Lemma cost_avoided_decays_witness :
  let i := hypertension_only (A:=Q) 20 50 in
  ∃ r1 r2,
    snd (calculate_savings i) !! 0%nat = Some r1
    ∧ snd (calculate_savings i) !! 1%nat = Some r2
    ∧ Cost_Avoided r2 == Cost_Avoided r1 / (1 + discount_rate i).
Proof.
  intros i. eexists _, _. split; [| split].
  - rewrite cost_avoided_column. reflexivity.
  - rewrite cost_avoided_column. reflexivity.
  - apply (cost_avoided_decays i 0).
    + intros Hz. vm_compute in Hz. discriminate.
    + rewrite cost_avoided_column. reflexivity.
    + rewrite cost_avoided_column. reflexivity.
Defined.

Lemma fold_Qeq {T : Type} (f g : Q → T → Q) (l : list T) (acc acc' : Q) :
  (∀ x y y', y == y' → f y x == g y' x) → acc == acc' →
  fold_left f l acc == fold_left g l acc'.
Proof.
  intros Hfg. revert acc acc'. induction l as [|x l IH]; intros acc acc' Ha; simpl.
  - exact Ha.
  - apply IH. by apply Hfg.
Qed.

Lemma sum_map_Qeq {T : Type} (f g : T → Q) (l : list T) (acc acc' : Q) :
  (∀ t, f t == g t) → acc == acc' →
  fold_left Qplus (map f l) acc == fold_left Qplus (map g l) acc'.
Proof.
  intros Hfg. revert acc acc'. induction l as [|t l IH]; intros acc acc' Ha; simpl.
  - exact Ha.
  - apply IH. by rewrite Ha, (Hfg t).
Qed.

(** The population, the OSA prevalence, the two diagnosis rates and the
    adherence reach the result only through their product, the newly
    treated population: two inputs with the same newly treated population
    and the same costs, discount rate and profiles give the same total and
    the same rows.  In particular the untreated population and the baseline
    cases computed in the loop have no effect. *)
Theorem output_depends_on_newly_treated (i1 i2 : inputs Q) :
  improved_treated_osa i1 == improved_treated_osa i2 →
  discount_rate i1 = discount_rate i2 →
  cost_treatment i1 = cost_treatment i2 →
  cost_diagnosis i1 = cost_diagnosis i2 →
  comorbidity_prevalence i1 = comorbidity_prevalence i2 →
  joint_prevalence i1 = joint_prevalence i2 →
  fst (calculate_savings i1) == fst (calculate_savings i2)
  ∧ Forall2 (fun r1 r2 => Year r1 = Year r2
                          ∧ Cost_Avoided r1 == Cost_Avoided r2
                          ∧ Treatment_Cost r1 == Treatment_Cost r2
                          ∧ Net_Savings r1 == Net_Savings r2)
            (snd (calculate_savings i1)) (snd (calculate_savings i2)).
Proof.
  intros Himp Hr Hct Hcd Hcp Hjp.
  assert (Hys : ∀ t, yearly_savings_of i1 t == yearly_savings_of i2 t).
  { intros t. unfold yearly_savings_of. rewrite Hjp.
    apply fold_Qeq; [| apply fold_Qeq; [| reflexivity]].
    - intros [k v] y y' Hy. unfold joint_step, discounted_value. unfold_Q.
      by rewrite Himp, Hr, Hy.
    - intros c y y' Hy. unfold condition_step, discounted_value. unfold_Q.
      by rewrite Himp, Hr, Hcp, Hy. }
  assert (Htc : ∀ t, discounted_value (treatment_cost_of i1 t) t (discount_rate i1)
                     == discounted_value (treatment_cost_of i2 t) t (discount_rate i2)).
  { intros t. unfold treatment_cost_of, discounted_value. unfold_Q.
    by rewrite Himp, Hr, Hct, Hcd. }
  split.
  - unfold calculate_savings. rewrite !year_step_fold. cbn [fst]. unfold_Q.
    apply sum_map_Qeq; [| reflexivity].
    intros t. by rewrite (Hys t), (Htc t).
  - rewrite !cost_avoided_column.
    apply Forall2_fmap, Forall_Forall2_diag, Forall_forall. intros t _.
    cbn [Year Cost_Avoided Treatment_Cost Net_Savings]. unfold_Q.
    repeat split; [apply Hys | apply Htc |].
    by rewrite (Hys t), (Htc t).
Qed.

Lemma output_depends_on_newly_treated_witness :
  let i1 := hypertension_only (A:=Q) 20 50 in
  let i2 := hypertension_only (A:=Q) 30 60 in
  fst (calculate_savings i1) == fst (calculate_savings i2)
  ∧ Forall2 (fun r1 r2 => Year r1 = Year r2
                          ∧ Cost_Avoided r1 == Cost_Avoided r2
                          ∧ Treatment_Cost r1 == Treatment_Cost r2
                          ∧ Net_Savings r1 == Net_Savings r2)
            (snd (calculate_savings i1)) (snd (calculate_savings i2)).
Proof.
  apply (output_depends_on_newly_treated
           (hypertension_only 20 50) (hypertension_only 30 60));
    reflexivity.
Defined.

Lemma treatment_cost_linear (i : inputs Q) (a : Q) (t : Z) :
  discounted_value (treatment_cost_of (with_adherence i a) t) t (discount_rate i)
  == a * discounted_value (treatment_cost_of (with_adherence i 1) t) t (discount_rate i).
Proof.
  unfold treatment_cost_of, discounted_value, improved_treated_osa.
  cbn [population_size osa_prevalence current_diagnosis_rate target_diagnosis_rate
       treatment_adherence cost_treatment cost_diagnosis with_adherence].
  unfold_Q. unfold Qdiv. ring.
Qed.

(** Every column of every row, and the total, are proportional to the
    treatment adherence: they are the adherence times their value at full
    adherence. *)
Theorem output_proportional_to_adherence (i : inputs Q) (a : Q) :
  fst (calculate_savings (with_adherence i a))
  == a * fst (calculate_savings (with_adherence i 1))
  ∧ Forall2 (fun r r1 => Year r = Year r1
                         ∧ Cost_Avoided r == a * Cost_Avoided r1
                         ∧ Treatment_Cost r == a * Treatment_Cost r1
                         ∧ Net_Savings r == a * Net_Savings r1)
            (snd (calculate_savings (with_adherence i a)))
            (snd (calculate_savings (with_adherence i 1))).
Proof.
  split.
  - unfold calculate_savings. rewrite !year_step_fold. cbn [fst]. unfold_Q.
    apply sum_map_linear; [| simpl inject_Z; ring].
    intros t. cbn [discount_rate with_adherence].
    rewrite (yearly_savings_linear i a t), (treatment_cost_linear i a t). ring.
  - rewrite !cost_avoided_column.
    apply Forall2_fmap, Forall_Forall2_diag, Forall_forall. intros t _.
    cbn [Year Cost_Avoided Treatment_Cost Net_Savings discount_rate with_adherence].
    unfold_Q.
    repeat split;
      [apply yearly_savings_linear | apply treatment_cost_linear |].
    rewrite (yearly_savings_linear i a t), (treatment_cost_linear i a t). ring.
Qed.

(** For inputs in the intended range and an adherence that is not
    negative, no row has a negative cost avoided. *)
Theorem cost_avoided_nonnegative (i : inputs Q) :
  nonnegative_inputs i → 0 <= treatment_adherence i →
  Forall (fun r => 0 <= Cost_Avoided r) (snd (calculate_savings i)).
Proof.
  intros Hi Ha. rewrite cost_avoided_column.
  apply Forall_map, Forall_forall. intros t _. cbn [Cost_Avoided].
  change (yearly_savings_of i t)
    with (yearly_savings_of (with_adherence i (treatment_adherence i)) t).
  rewrite yearly_savings_linear.
  apply Qmult_le_0_compat; [exact Ha | by apply full_adherence_nonneg].
Qed.

Lemma cost_avoided_nonnegative_witness :
  Forall (fun r => 0 <= Cost_Avoided r)
         (snd (calculate_savings (hypertension_only (A:=Q) 20 50))).
Proof.
  apply (cost_avoided_nonnegative (hypertension_only 20 50)).
  - unfold nonnegative_inputs. cbn [hypertension_only population_size osa_prevalence
      current_diagnosis_rate target_diagnosis_rate discount_rate
      comorbidity_prevalence joint_prevalence].
    repeat split; try (by vm_compute).
    apply map_Forall_insert_2; [by vm_compute | apply map_Forall_empty].
  - by vm_compute.
Defined.

(** *** The plotted curve *)

Lemma length_cumsum_from (l : list Q) (acc : Q) :
  length (cumsum_from acc l) = length l.
Proof.
  revert acc. induction l as [|x l IH]; intros acc; simpl; [reflexivity |].
  by rewrite IH.
Qed.

Lemma cumsum_from_lookup (l : list Q) (acc : Q) (k : nat) :
  (k < length l)%nat →
  cumsum_from acc l !! k = Some (fold_left Qplus (take (S k) l) acc).
Proof.
  revert acc k. induction l as [|x l IH]; intros acc k Hk; simpl in Hk; [lia |].
  destruct k as [|k]; [reflexivity |].
  cbn [cumsum_from]. rewrite lookup_cons_ne_0 by lia. cbn [pred].
  rewrite IH by lia. reflexivity.
Qed.

(** The curve of line 142 has one point per year; its point number [k] is
    the sum of the net savings of the first [k+1] years, and its last
    point is the total NPV shown above the table. *)
Theorem cumulative_curve (i : inputs Q) :
  length (cumulative_net_savings i) = 20%nat
  ∧ (∀ k y, cumulative_net_savings i !! k = Some y →
            y == py_sum (take (S k) (map Net_Savings (snd (calculate_savings i)))))
  ∧ (∃ y, last (cumulative_net_savings i) = Some y
          ∧ y == fst (calculate_savings i)).
Proof.
  assert (Hpt : ∀ (l : list Q) k y, cumsum l !! k = Some y →
                                    y == py_sum (take (S k) l)).
  { intros [|x l] k y; [discriminate |]. unfold py_sum. unfold_Q.
    destruct k as [|k]; cbn [cumsum].
    - intros [= <-]. simpl. ring.
    - rewrite lookup_cons_ne_0 by lia. cbn [pred]. intros Hk.
      assert (Hlen : (k < length l)%nat).
      { apply lookup_lt_Some in Hk. by rewrite length_cumsum_from in Hk. }
      rewrite cumsum_from_lookup in Hk by exact Hlen. injection Hk as <-.
      cbn [take fold_left]. apply fold_Qeq; [| simpl; ring].
      intros z u u' Hu. by rewrite Hu. }
  assert (Hlen : ∀ (l : list Q), length (cumsum l) = length l).
  { intros [|x l]; [reflexivity |]. cbn [cumsum length].
    by rewrite length_cumsum_from. }
  unfold cumulative_net_savings. split; [| split].
  - rewrite Hlen, length_map. apply series_length.
  - intros k y. apply Hpt.
  - rewrite last_lookup, Hlen, length_map, series_length. cbn [pred].
    destruct (cumsum _ !! 19%nat) as [y|] eqn:Hy.
    + exists y. split; [reflexivity |]. rewrite (Hpt _ _ _ Hy).
      rewrite firstn_all2 by (rewrite length_map, series_length; lia).
      unfold calculate_savings, py_sum. rewrite year_step_fold.
      cbn [fst snd app]. rewrite map_map. reflexivity.
    + apply lookup_ge_None in Hy. rewrite Hlen, length_map, series_length in Hy. lia.
Qed.

End RationalSeries.

(** * Further properties of the Sampler *)

Section SamplerCounts.
Import Sampler.
Local Open Scope Z_scope.

(** A simulated patient reads one or four random numbers and gets one of
    twelve labels: a joint label with the names in the order hypertension,
    diabetes, cardio; ["none"]; or the names drawn one by one, sorted
    alphabetically. *)
Theorem simulate_patient_labels (c : parameters) (rand : nat → Q) (pos : nat) :
  In (simulate_patient c rand pos).1
     [ "hypertension_diabetes_cardio"; "hypertension_diabetes";
       "hypertension_cardio"; "diabetes_cardio"; "none";
       "hypertension"; "diabetes"; "cardio";
       "diabetes_hypertension"; "cardio_hypertension"; "cardio_diabetes";
       "cardio_diabetes_hypertension" ]%string
  ∧ ((simulate_patient c rand pos).2 = S pos
     ∨ (simulate_patient c rand pos).2 = S (S (S (S pos)))).
Proof.
  unfold simulate_patient.
  repeat match goal with
         | |- context [Qltb ?x ?y] => destruct (Qltb x y)
         end; vm_compute; tauto.
Qed.


Lemma sum_from (l : list Z) (a : Z) :
  fold_left Z.add l a = a + fold_left Z.add l 0.
Proof.
  revert a. induction l as [|x l IH]; intros a; cbn [fold_left]; [lia |].
  rewrite (IH (a + x)), (IH (0 + x)). lia.
Qed.

Lemma count_one_get (k k' : string) (counts : list (string * Z)) :
  dict_get (count_one k counts) k'
  = if String.eqb k k' then Some (default 0 (dict_get counts k) + 1)
    else dict_get counts k'.
Proof.
  induction counts as [|[k0 v] counts IH].
  - cbn [count_one dict_get default]. reflexivity.
  - cbn [count_one dict_get].
    destruct (String.eqb_spec k0 k) as [->|Hne]; cbn [dict_get default].
    + destruct (String.eqb_spec k k') as [->|Hne']; [reflexivity |].
      reflexivity.
    + rewrite IH. destruct (String.eqb_spec k0 k') as [->|Hne'].
      * destruct (String.eqb_spec k k') as [->|_]; [contradiction | reflexivity].
      * reflexivity.
Qed.

Lemma count_one_keys (k : string) (counts : list (string * Z)) :
  dict_keys (count_one k counts)
  = if decide (k ∈ dict_keys counts) then dict_keys counts
    else dict_keys counts ++ [k].
Proof.
  induction counts as [|[k0 v] counts IH].
  - rewrite decide_False by apply not_elem_of_nil. reflexivity.
  - cbn [count_one]. destruct (String.eqb_spec k0 k) as [->|Hne].
    + rewrite decide_True by apply list_elem_of_here. reflexivity.
    + unfold dict_keys in *. cbn [map fst]. rewrite IH.
      destruct (decide (k ∈ map fst counts)) as [Hin|Hin].
      * rewrite decide_True by (by apply list_elem_of_further). reflexivity.
      * rewrite decide_False; [reflexivity |].
        intros [?|?]%elem_of_cons; [congruence | contradiction].
Qed.

Lemma count_one_values (k : string) (counts : list (string * Z)) :
  fold_left Z.add (dict_values (count_one k counts)) 0
  = fold_left Z.add (dict_values counts) 0 + 1.
Proof.
  unfold dict_values. induction counts as [|[k0 v] counts IH]; [reflexivity |].
  cbn [count_one]. destruct (String.eqb k0 k); cbn [map snd fold_left].
  - rewrite (sum_from _ (0 + (v + 1))), (sum_from _ (0 + v)). lia.
  - rewrite (sum_from _ (0 + v)), IH, (sum_from (map snd counts) (0 + v)). lia.
Qed.

Lemma count_one_positive (k : string) (counts : list (string * Z)) :
  Forall (fun item => 1 ≤ item.2) counts →
  Forall (fun item => 1 ≤ item.2) (count_one k counts).
Proof.
  induction 1 as [|[k0 v] counts Hv Hall IH]; cbn [count_one].
  - constructor; [simpl; lia | constructor].
  - destruct (String.eqb k0 k); constructor; simpl in *; auto; lia.
Qed.

Lemma Counter_fold (clusters : list string) (counts : list (string * Z)) (k : string) :
  let counts' := fold_left (fun counts k => count_one k counts) clusters counts in
  dict_get counts' k
  = (if decide (count_occ string_dec clusters k = 0%nat) then dict_get counts k
     else Some (default 0 (dict_get counts k)
                + Z.of_nat (count_occ string_dec clusters k)))
  ∧ (NoDup (dict_keys counts) → NoDup (dict_keys counts'))
  ∧ fold_left Z.add (dict_values counts') 0
    = fold_left Z.add (dict_values counts) 0 + Z.of_nat (length clusters)
  ∧ (Forall (fun item => 1 ≤ item.2) counts → Forall (fun item => 1 ≤ item.2) counts').
Proof.
  revert counts. induction clusters as [|x clusters IH]; intros counts; cbn zeta.
  - cbn [fold_left count_occ length]. rewrite decide_True by reflexivity.
    split; [reflexivity | split; [auto | split; [| auto]]].
    change (Z.of_nat 0) with 0. lia.
  - cbn [fold_left]. destruct (IH (count_one x counts)) as (Hget & Hnd & Hsum & Hpos).
    rewrite Hget, Hsum, count_one_values, count_one_get. clear Hget Hsum.
    split; [| split; [| split]].
    + cbn [count_occ]. destruct (string_dec x k) as [->|Hne].
      * rewrite String.eqb_refl. rewrite (decide_False (P := S _ = 0%nat)) by lia.
        destruct (decide (count_occ string_dec clusters k = 0%nat)) as [->|_];
          apply (f_equal Some); destruct (dict_get counts k);
          cbn [from_option id]; lia.
      * destruct (String.eqb_spec x k) as [?|_]; [contradiction | reflexivity].
    + intros Hnodup. apply Hnd. rewrite count_one_keys.
      destruct (decide (x ∈ dict_keys counts)) as [Hin|Hin]; [exact Hnodup |].
      apply NoDup_app. repeat split; [exact Hnodup | | apply NoDup_singleton].
      intros y Hy ->%list_elem_of_singleton. by apply Hin.
    + cbn [length]. lia.
    + intros Hall. by apply Hpos, count_one_positive.
Qed.

(** [Counter]: every label is counted once per occurrence and labels that
    do not occur have no entry; no label is listed twice; no count is below
    1; and the counts add up to the number of patients. *)
Theorem Counter_counts (clusters : list string) :
  (∀ k, dict_get (Counter clusters) k
        = if decide (count_occ string_dec clusters k = 0%nat) then None
          else Some (Z.of_nat (count_occ string_dec clusters k)))
  ∧ NoDup (dict_keys (Counter clusters))
  ∧ Forall (fun item => 1 ≤ item.2) (Counter clusters)
  ∧ fold_left Z.add (dict_values (Counter clusters)) 0 = Z.of_nat (length clusters).
Proof.
  unfold Counter. repeat split.
  - intros k. destruct (Counter_fold clusters [] k) as (Hget & _).
    rewrite Hget. cbn [dict_get default]. by destruct (decide _).
  - destruct (Counter_fold clusters [] ""%string) as (_ & Hnd & _).
    apply Hnd. constructor.
  - destruct (Counter_fold clusters [] ""%string) as (_ & _ & _ & Hpos).
    apply Hpos. constructor.
  - destruct (Counter_fold clusters [] ""%string) as (_ & _ & Hsum & _).
    rewrite Hsum. reflexivity.
Qed.

End SamplerCounts.

Section SamplerRecord.
Import Sampler.
Local Open Scope Z_scope.

Lemma comprehension_map {T U : Type} (f : T → outcome U) (g : T → U) (l : list T) :
  (∀ x, In x l → f x = Returns (g x)) → comprehension f l = Returns (map g l).
Proof.
  induction l as [|x l IH]; intros Hf; [reflexivity |].
  cbn [comprehension map]. rewrite (Hf x) by (by left).
  cbn. rewrite IH by (intros y Hy; apply Hf; by right). reflexivity.
Qed.

(** The record of a run, field by field.  With a count of 0 nobody is
    counted and the list of prevalences is empty. *)
Lemma run_record (c : parameters) (rand : nat → Q) :
  let counts := Counter (simulate c rand (Z.to_nat (n_patients c)) 0) in
  run c rand =
  Returns
    {| population := n_patients c;
       joint_prevalence :=
         map (fun item => (item.1, (inject_Z item.2 / inject_Z (n_patients c))%Q)) counts;
       average_costs := map (fun k => (k, estimate_cost k)) (dict_keys counts);
       total_cost :=
         fold_left Z.add
           (map (fun k => default 0 (dict_get counts k)
                          * default 0 (dict_get (map (fun k => (k, estimate_cost k))
                                                     (dict_keys counts)) k))
                (dict_keys counts)) 0 |}.
Proof.
  intros counts. unfold run. fold counts.
  rewrite (comprehension_map _
             (fun item => (item.1, (inject_Z item.2 / inject_Z (n_patients c))%Q))).
  - reflexivity.
  - intros item Hitem. unfold true_div.
    destruct (Z.eqb_spec (n_patients c) 0) as [Hz|_]; [| reflexivity].
    exfalso. subst counts. rewrite Hz in Hitem. exact Hitem.
Qed.

Lemma weighted_by_key (f : string → Z) (keys : list string) (k0 : string) (v : Z)
    (d : list (string * Z)) :
  ¬ In k0 keys →
  map (fun k => default 0 (dict_get ((k0, v) :: d) k) * f k) keys
  = map (fun k => default 0 (dict_get d k) * f k) keys.
Proof.
  intros Hk0. apply map_ext_in. intros k Hk. cbn [dict_get].
  destruct (String.eqb_spec k0 k) as [->|_]; [contradiction | reflexivity].
Qed.

Lemma weighted_by_item (f : string → Z) (d : list (string * Z)) :
  NoDup (dict_keys d) →
  fold_left Z.add (map (fun k => default 0 (dict_get d k) * f k) (dict_keys d)) 0
  = fold_left Z.add (map (fun item => item.2 * f item.1) d) 0.
Proof.
  unfold dict_keys. induction d as [|[k0 v] d IH]; intros Hnd; [reflexivity |].
  apply NoDup_cons in Hnd as [Hk0 Hnd].
  cbn [map fst snd fold_left].
  rewrite weighted_by_key by (by rewrite <- list_elem_of_In).
  cbn [dict_get]. rewrite String.eqb_refl. cbn [from_option id].
  rewrite (sum_from _ (0 + v * f k0)), IH, <- (sum_from _ (0 + v * f k0)) by exact Hnd.
  reflexivity.
Qed.

Lemma count_one_weight (f : string → Z) (x : string) (d : list (string * Z)) :
  fold_left Z.add (map (fun item => item.2 * f item.1) (count_one x d)) 0
  = fold_left Z.add (map (fun item => item.2 * f item.1) d) 0 + f x.
Proof.
  induction d as [|[k0 v] d IH]; [cbn; lia |].
  cbn [count_one]. destruct (String.eqb_spec k0 x) as [->|_];
    cbn [map fst snd fold_left].
  - rewrite (sum_from _ (0 + (v + 1) * f x)), (sum_from _ (0 + v * f x)). lia.
  - rewrite (sum_from _ (0 + v * f k0)), IH,
            (sum_from (map _ d) (0 + v * f k0)). lia.
Qed.

Lemma Counter_weight (f : string → Z) (clusters : list string) (d : list (string * Z)) :
  fold_left Z.add
    (map (fun item => item.2 * f item.1)
         (fold_left (fun counts k => count_one k counts) clusters d)) 0
  = fold_left Z.add (map (fun item => item.2 * f item.1) d) 0
    + fold_left Z.add (map f clusters) 0.
Proof.
  revert d. induction clusters as [|x clusters IH]; intros d; cbn [fold_left map].
  - lia.
  - rewrite IH, count_one_weight, (sum_from _ (0 + f x)). lia.
Qed.

Lemma dict_get_tabulate {V : Type} (f : string → V) (keys : list string) (k : string) :
  In k keys → dict_get (map (fun k => (k, f k)) keys) k = Some (f k).
Proof.
  induction keys as [|k0 keys IH]; intros Hk; [contradiction |].
  cbn [map dict_get]. destruct (String.eqb_spec k0 k) as [->|Hne]; [reflexivity |].
  apply IH. destruct Hk; [contradiction | assumption].
Qed.

(** The total cost of the record is the sum, over the simulated patients,
    of the cost estimated for each patient's cluster. *)
Theorem total_cost_per_patient (c : parameters) (rand : nat → Q) :
  ∃ out, run c rand = Returns out
    ∧ total_cost out
      = fold_left Z.add
          (map estimate_cost (simulate c rand (Z.to_nat (n_patients c)) 0)) 0.
Proof.
  eexists. split; [apply run_record |]. cbn [total_cost].
  set (clusters := simulate c rand (Z.to_nat (n_patients c)) 0).
  rewrite (map_ext_in _ (fun k => default 0 (dict_get (Counter clusters) k)
                                  * estimate_cost k)).
  - rewrite weighted_by_item.
    + unfold Counter. rewrite Counter_weight. reflexivity.
    + destruct (Counter_fold clusters [] ""%string) as (_ & Hnd & _).
      apply Hnd. constructor.
  - intros k Hk. by rewrite dict_get_tabulate.
Qed.

End SamplerRecord.

Section SamplerPrevalence.
Import Sampler.
Local Open Scope Q_scope.





Lemma Qltb_zero (r p : Q) : 0 <= r → p == 0 → Qltb r p = false.
Proof.
  intros Hr Hp. unfold Qltb. apply negb_false_iff, Qle_bool_iff.
  by rewrite Hp.
Qed.

Lemma count_none (m : nat) (v : Z) :
  fold_left (fun counts k => count_one k counts) (repeat "none"%string m)
            [("none"%string, v)]
  = [("none"%string, (v + Z.of_nat m)%Z)].
Proof.
  revert v. induction m as [|m IH]; intros v.
  - cbn [repeat fold_left]. do 2 f_equal. lia.
  - cbn [repeat fold_left count_one]. rewrite String.eqb_refl, IH.
    do 2 f_equal. lia.
Qed.

(** When every probability is 0 and the random numbers are not negative,
    every patient of a positive population falls in the cluster ["none"]:
    the record has this single cluster, with prevalence 1 and cost 0, and
    the total cost is 0. *)
Theorem zero_probabilities_run (c : parameters) (rand : nat → Q) :
  (∀ k, 0 <= rand k) →
  p_all_three c == 0 → p_hyp_dia c == 0 → p_hyp_car c == 0 → p_dia_car c == 0 →
  p_hyp c == 0 → p_dia c == 0 → p_car c == 0 →
  (0 < n_patients c)%Z →
  ∃ out q, run c rand = Returns out
    ∧ joint_prevalence out = [("none"%string, q)] ∧ q == 1
    ∧ average_costs out = [("none"%string, 0%Z)]
    ∧ total_cost out = 0%Z.
Proof.
  intros Hrand H3 Hhd Hhc Hdc Hh Hd Hc Hn.
  assert (Hone : ∀ pos, simulate_patient c rand pos
                        = ("none"%string, S (S (S (S pos))))).
  { intros pos. unfold simulate_patient.
    rewrite !Qltb_zero; try reflexivity; try apply Hrand; try assumption.
    - rewrite H3, Hhd, Hhc, Hdc. reflexivity.
    - rewrite H3, Hhd, Hhc. reflexivity.
    - rewrite H3, Hhd. reflexivity. }
  assert (Hall : ∀ n pos, simulate c rand n pos = repeat "none"%string n).
  { induction n as [|n IH]; intros pos; [reflexivity |].
    cbn [simulate repeat]. rewrite Hone, IH. reflexivity. }
  pose proof (run_record c rand) as Hrun. cbn zeta in Hrun.
  rewrite Hall in Hrun.
  destruct (Z.to_nat (n_patients c)) as [|m] eqn:Hm; [lia |].
  unfold Counter in Hrun. cbn [repeat fold_left count_one] in Hrun.
  rewrite count_none in Hrun.
  eexists _, _. split; [exact Hrun |]. cbn.
  split; [reflexivity |]. split; [| split; [reflexivity | lia]].
  replace (1 + Z.of_nat m)%Z with (n_patients c) by lia.
  field. intros Hz. unfold Qeq in Hz. simpl in Hz. lia.
Qed.

Lemma zero_probabilities_run_witness :
  let c := {| n_patients := 5;
              p_hyp := 0; p_dia := 0; p_car := 0;
              p_hyp_dia := 0; p_hyp_car := 0; p_dia_car := 0; p_all_three := 0 |} in
  ∃ out q, run c (fun _ => 0.5) = Returns out
    ∧ joint_prevalence out = [("none"%string, q)] ∧ q == 1
    ∧ average_costs out = [("none"%string, 0%Z)]
    ∧ total_cost out = 0%Z.
Proof.
  intros c. apply (zero_probabilities_run c (fun _ => 0.5));
    try reflexivity; intros; by vm_compute.
Defined.

End SamplerPrevalence.

Section ClusterCost.
Import Sampler.
Local Open Scope Z_scope.

Lemma no_separator_cons (c : ascii) (s : string) :
  contains "_" (String c s) = false → c ≠ "_"%char ∧ contains "_" s = false.
Proof.
  rewrite contains_cons. intros [Hp Hc]%orb_false_iff. split; [| exact Hc].
  intros ->. cbn in Hp. by destruct s.
Qed.

Lemma split_field (a b : string) :
  contains "_" a = false →
  split "_" (a +:+ String "_" b) = a :: split "_" b.
Proof.
  induction a as [|c a IH]; intros Ha.
  - reflexivity.
  - apply no_separator_cons in Ha as [Hc Ha]. rewrite append_cons.
    cbn [split]. destruct (Ascii.eqb_spec c "_") as [?|_]; [contradiction |].
    by rewrite IH.
Qed.

Lemma split_single (a : string) :
  contains "_" a = false → split "_" a = [a].
Proof.
  induction a as [|c a IH]; intros Ha; [reflexivity |].
  apply no_separator_cons in Ha as [Hc Ha]. cbn [split].
  destruct (Ascii.eqb_spec c "_") as [?|_]; [contradiction |].
  by rewrite IH.
Qed.

(** Joining names with ["_"] and splitting again gives the names back,
    provided there is at least one name and no name contains ["_"]. *)
Lemma split_concat (names : list string) :
  names ≠ [] → Forall (fun s => contains "_" s = false) names →
  split "_" (String.concat "_" names) = names.
Proof.
  intros Hne Hall. induction Hall as [|a names Ha Hall IH]; [contradiction |].
  destruct names as [|b names].
  - cbn [String.concat]. by apply split_single.
  - change (String.concat "_" (a :: b :: names))
      with (a +:+ String "_" (String.concat "_" (b :: names))).
    rewrite split_field by exact Ha. f_equal. by apply IH.
Qed.

Lemma sum_permutation (l l' : list Z) :
  l ≡ₚ l' → fold_left Z.add l 0 = fold_left Z.add l' 0.
Proof.
  induction 1 as [|x l l' _ IH|x y l|l l' l'' _ IH1 _ IH2]; cbn [fold_left].
  - reflexivity.
  - rewrite (sum_from l), (sum_from l'). lia.
  - rewrite (sum_from l (0 + y + x)), (sum_from l (0 + x + y)). lia.
  - congruence.
Qed.

(** The cost of a cluster is the sum of the costs of the names in its
    label, a name without a cost counting 0, and so does not depend on the
    order of the names: the alphabetically sorted labels of the patients
    drawn condition by condition cost the same as the joint labels with the
    same names. *)
Theorem estimate_cost_of_names (names names' : list string) :
  names ≠ [] → Forall (fun s => contains "_" s = false) names →
  names ≡ₚ names' →
  estimate_cost (String.concat "_" names)
  = fold_left Z.add (map (fun k => default 0 (dict_get costs k)) names) 0
  ∧ estimate_cost (String.concat "_" names')
    = estimate_cost (String.concat "_" names).
Proof.
  assert (Hcost : ∀ l, l ≠ [] → Forall (fun s => contains "_" s = false) l →
            estimate_cost (String.concat "_" l)
            = fold_left Z.add (map (fun k => default 0 (dict_get costs k)) l) 0).
  { intros l Hne Hall. unfold estimate_cost.
    destruct (String.eqb_spec (String.concat "_" l) "none") as [Hnone|_].
    - pose proof (split_concat l Hne Hall) as Hsplit. rewrite Hnone in Hsplit.
      rewrite <- Hsplit. reflexivity.
    - by rewrite split_concat. }
  intros Hne Hall Hperm. split; [by apply Hcost |].
  rewrite !Hcost; try assumption.
  - apply sum_permutation, Permutation_map. by symmetry.
  - intros ->. apply Permutation_nil_r in Hperm. contradiction.
  - by rewrite <- Hperm.
Qed.

Lemma estimate_cost_of_names_witness :
  estimate_cost (String.concat "_" ["hypertension"; "diabetes"]%string)
  = fold_left Z.add
      (map (fun k => default 0 (dict_get costs k)) ["hypertension"; "diabetes"]%string) 0
  ∧ estimate_cost (String.concat "_" ["diabetes"; "hypertension"]%string)
    = estimate_cost (String.concat "_" ["hypertension"; "diabetes"]%string).
Proof.
  apply (estimate_cost_of_names ["hypertension"; "diabetes"]%string
                                ["diabetes"; "hypertension"]%string).
  - discriminate.
  - repeat constructor.
  - apply perm_swap.
Defined.

End ClusterCost.
